(** * iowarp-core: the CMake build orchestrator of [setup.py]

    A shallow embedding of [CMakeBuild.run] and [CMakeBuild.build_component]
    and the properties of the orchestration they implement.

    The program is effectful: it prints, touches the filesystem through
    [pathlib] and starts external processes through [subprocess].  It is
    modelled in a state-and-exception monad over a [World] made of a
    filesystem and the log of everything the program did, in order; a Python
    exception is a [Raise] result that keeps the world as the failed step
    left it.  The external processes (git, cmake) are an arbitrary
    deterministic [Host] oracle, which sees the whole world so far and may
    change the filesystem: the theorems hold for every host.  The flavour of
    [pathlib] (POSIX or Windows) is a parameter as well; the POSIX one is
    given in full and is used to run the model.

    Not modelled: the buffering of [print], permissions, and what the
    external tools do with their arguments. *)

From Stdlib Require Import ZArith Ascii String List DecimalString.
From stdpp Require Import base option list strings gmap.

Local Open Scope string_scope.
Local Open Scope list_scope.
Local Open Scope Z_scope.

(** ** Text helpers: the pieces of Python's [str] the script uses *)

Module Text.

(** The newline character of ["\n"]. *)
Definition nl : string := String "010"%char "".

(** [s * n] on a string. *)
Fixpoint repeat_str (s : string) (n : nat) : string :=
  match n with
  | O => ""
  | S k => s +:+ repeat_str s k
  end.

(** [sep.join(l)]. *)
Fixpoint join (sep : string) (l : list string) : string :=
  match l with
  | [] => ""
  | [x] => x
  | x :: xs => x +:+ sep +:+ join sep xs
  end.

(** [s.split(c)] for a one-character separator: never the empty list. *)
Fixpoint split (c : ascii) (s : string) : list string :=
  match s with
  | EmptyString => [""]
  | String a s' =>
      if Ascii.eqb a c then "" :: split c s'
      else match split c s' with
           | h :: t => String a h :: t
           | [] => [String a ""]
           end
  end.

(** [s.removeprefix(p)], when [s] starts with [p]. *)
Fixpoint strip_prefix (p s : string) : option string :=
  match p, s with
  | EmptyString, _ => Some s
  | String a p', String b s' =>
      if Ascii.eqb a b then strip_prefix p' s' else None
  | String _ _, EmptyString => None
  end.

(** [s.startswith(p)]. *)
Definition startswith (p s : string) : bool :=
  match strip_prefix p s with
  | Some _ => true
  | None => false
  end.

(** [str(n)] for an [int]. *)
Definition str_of_Z (n : Z) : string := NilZero.string_of_int (Z.to_int n).

End Text.

(** ** Paths: [pathlib.Path] *)

(** A parsed path, as [pathlib] keeps it: the anchor (drive and root) and the
    remaining components. *)
Record Path := mkPath { anchor : string; parts : list string }.

#[global] Instance Path_eq_dec : EqDecision Path.
Proof. solve_decision. Defined.

(** What differs between [PosixPath] and [WindowsPath]: the separator, the
    parsing of a string, joining and making absolute.  The script never looks
    inside a path, so everything below is stated for an arbitrary flavour. *)
Class Flavour := {
  sep : string;
  of_str : string -> Path;            (* Path(s) *)
  joinpath : Path -> string -> Path;  (* p / s *)
  absolute : string -> Path -> Path;  (* p.absolute(), given os.getcwd() *)
}.

Module Pathlib.
Section Generic.
Context `{Flavour}.

(** [str(p)]; the empty path prints as a dot. *)
Definition str (p : Path) : string :=
  match anchor p, parts p with
  | EmptyString, [] => "."
  | a, ps => a +:+ Text.join sep ps
  end.

(** [p.parent]: the anchor is its own parent. *)
Definition parent (p : Path) : Path :=
  mkPath (anchor p) (removelast (parts p)).
End Generic.

(** *** The POSIX flavour, after [posixpath.splitroot] and
    [PurePath._parse_path] *)

Definition posix_splitroot (s : string) : string * string :=
  match s with
  | String "/" (String "/" (String "/" r)) => ("/", String "/" r)
  | String "/" (String "/" r) => ("//", r)
  | String "/" r => ("/", r)
  | _ => ("", s)
  end.

Definition posix_tail (rel : string) : list string :=
  filter (fun x => x <> "" /\ x <> ".") (Text.split "/" rel).

Definition posix_of_str (s : string) : Path :=
  let '(root, rel) := posix_splitroot s in mkPath root (posix_tail rel).

Definition posix_joinpath (p : Path) (s : string) : Path :=
  let q := posix_of_str s in
  match anchor q with
  | EmptyString => mkPath (anchor p) (parts p ++ parts q)
  | _ => q
  end.

Definition posix_absolute (cwd : string) (p : Path) : Path :=
  match anchor p with
  | EmptyString =>
      let c := posix_of_str cwd in mkPath (anchor c) (parts c ++ parts p)
  | _ => p
  end.

Definition posix : Flavour :=
  {| sep := "/"; of_str := posix_of_str; joinpath := posix_joinpath;
     absolute := posix_absolute |}.
End Pathlib.

(** ** The world the script runs in *)

(** A filesystem: what exists at each path text, a file or a directory. *)
Inductive node := File | Dir.

#[global] Instance node_eq_dec : EqDecision node.
Proof. solve_decision. Defined.

Abbreviation FS := (gmap string node).

(** Everything the script does that can be seen from outside, in order:
    a line printed, a [Path.mkdir] call, a process started by [subprocess]
    with its argument vector and its [cwd=]. *)
Inductive event :=
| EPrint (text : string)
| EMkdir (p : Path)
| ESpawn (argv : list string) (cwd : option Path).

Record World := mkWorld { fs : FS; log : list event }.

(** The [OSError] subclasses that occur. *)
Inductive oserror :=
| FileNotFoundError
| FileExistsError
| NotADirectoryError
| PermissionError.

(** The exceptions that reach the caller of [run]. *)
Inductive exn :=
| RuntimeError (msg : string)
| OSError (kind : oserror)
| CalledProcessError (returncode : Z) (cmd : list string)
                     (output : option string).

(** What starting an external process gives: it could not be started
    ([OSError]), or it ran, wrote [stdout], left the filesystem as [fs'] and
    exited with [status]. *)
Inductive outcome :=
| SpawnError (kind : oserror)
| Exited (status : Z) (stdout : string) (fs' : FS).

(** The host: [sys.prefix], [sys.platform], [multiprocessing.cpu_count()],
    [os.getcwd()], and the behaviour of every external process as a function
    of the world so far, the argument vector and the working directory. *)
Record Host := mkHost {
  sys_prefix : string;
  sys_platform : string;
  cpu_count : Z;
  getcwd : string;
  spawn : World -> list string -> option Path -> outcome;
}.

(** ** The state-and-exception monad *)

Inductive result (A : Type) :=
| Ok (a : A)
| Raise (e : exn).
Arguments Ok {A} a.
Arguments Raise {A} e.

Definition M (A : Type) : Type := World -> result A * World.

Definition ret {A} (a : A) : M A := fun w => (Ok a, w).

Definition raise {A} (e : exn) : M A := fun w => (Raise e, w).

Definition bind {A B} (m : M A) (k : A -> M B) : M B :=
  fun w =>
    match m w with
    | (Ok a, w1) => k a w1
    | (Raise e, w1) => (Raise e, w1)
    end.

Declare Scope prog_scope.
Delimit Scope prog_scope with prog.
Notation "x <- m ;; k" := (bind m (fun x => k))
  (at level 100, m at next level, right associativity) : prog_scope.
Notation "m ;; k" := (bind m (fun _ => k))
  (at level 100, right associativity) : prog_scope.
Local Open Scope prog_scope.

(** [for x in l: body(x)]: the first exception leaves the loop. *)
Fixpoint for_each {A} (l : list A) (body : A -> M unit) : M unit :=
  match l with
  | [] => ret tt
  | x :: xs => body x ;; for_each xs body
  end.

(** [try: m  except OSError: raise e]. *)
Definition except_OSError {A} (m : M A) (e : exn) : M A :=
  fun w =>
    match m w with
    | (Raise (OSError _), w1) => (Raise e, w1)
    | other => other
    end.

Definition emit (ev : event) : M unit :=
  fun w => (Ok tt, mkWorld (fs w) (log w ++ [ev])).

(** [print(text)]. *)
Definition print (text : string) : M unit := emit (EPrint text).

(** The events a computation added to the log. *)
Definition new_events (w w' : World) : list event :=
  drop (length (log w)) (log w').

(** ** Filesystem and process primitives *)

Section Primitives.
Context `{Flavour}.
Variable host : Host.

(** What is at [p]: a path with no component (the root, the current
    directory) is always a directory. *)
Definition stat (f : FS) (p : Path) : option node :=
  match parts p with
  | [] => Some Dir
  | _ => f !! Pathlib.str p
  end.

(** [p.exists()] and [p.is_dir()]. *)
Definition path_exists (f : FS) (p : Path) : bool :=
  bool_decide (is_Some (stat f p)).
Definition is_dir (f : FS) (p : Path) : bool :=
  bool_decide (stat f p = Some Dir).

(** [os.mkdir(p)]. *)
Definition os_mkdir (f : FS) (p : Path) : oserror + FS :=
  match stat f p with
  | Some _ => inl FileExistsError
  | None =>
      match stat f (Pathlib.parent p) with
      | None => inl FileNotFoundError
      | Some File => inl NotADirectoryError
      | Some Dir => inr (<[Pathlib.str p := Dir]> f)
      end
  end.

(** [Path.mkdir(parents=..., exist_ok=...)], following [pathlib]: try
    [os.mkdir]; on [FileNotFoundError] make the parent first, then the
    directory; on another [OSError] accept an existing directory when
    [exist_ok].  [fuel] bounds the climb to the parents. *)
Fixpoint path_mkdir (fuel : nat) (parents exist_ok : bool) (p : Path) (f : FS)
  : oserror + FS :=
  match os_mkdir f p with
  | inr f' => inr f'
  | inl FileNotFoundError =>
      if negb parents || bool_decide (Pathlib.parent p = p)
      then inl FileNotFoundError
      else match fuel with
           | O => inl FileNotFoundError
           | S k =>
               match path_mkdir k true true (Pathlib.parent p) f with
               | inl e => inl e
               | inr f1 => path_mkdir k false exist_ok p f1
               end
           end
  | inl e =>
      if negb exist_ok || negb (is_dir f p) then inl e else inr f
  end.

(** [p.mkdir(parents=True, exist_ok=True)] as a step of the script. *)
Definition mkdir_p (p : Path) : M unit :=
  fun w =>
    let w1 := mkWorld (fs w) (log w ++ [EMkdir p]) in
    match path_mkdir (length (parts p)) true true p (fs w) with
    | inl e => (Raise (OSError e), w1)
    | inr f' => (Ok tt, mkWorld f' (log w1))
    end.

(** [p.exists()] as a step of the script. *)
Definition exists_ (p : Path) : M bool :=
  fun w => (Ok (path_exists (fs w) p), w).

(** [subprocess.check_call(argv, cwd=cwd)]: the output is not captured; a
    non-zero exit status raises [CalledProcessError(status, argv)]. *)
Definition check_call (argv : list string) (cwd : option Path) : M unit :=
  fun w =>
    let lg := log w ++ [ESpawn argv cwd] in
    match spawn host w argv cwd with
    | SpawnError k => (Raise (OSError k), mkWorld (fs w) lg)
    | Exited status _ f' =>
        if bool_decide (status = 0) then (Ok tt, mkWorld f' lg)
        else (Raise (CalledProcessError status argv None), mkWorld f' lg)
    end.

(** [subprocess.check_output(argv)]: the output is captured and returned;
    a non-zero exit status raises
    [CalledProcessError(status, argv, output=stdout)]. *)
Definition check_output (argv : list string) : M string :=
  fun w =>
    let lg := log w ++ [ESpawn argv None] in
    match spawn host w argv None with
    | SpawnError k => (Raise (OSError k), mkWorld (fs w) lg)
    | Exited status out f' =>
        if bool_decide (status = 0) then (Ok out, mkWorld f' lg)
        else (Raise (CalledProcessError status argv (Some out)),
              mkWorld f' lg)
    end.
End Primitives.

(** ** The program *)

(** An entry of [COMPONENTS]: a dict with the keys ["name"], ["repo"] and,
    optionally, ["cmake_args"]. *)
Record Component := mkComponent {
  name : string;
  repo : string;
  cmake_args : option (list string);
}.

(** The [parallel] attribute of the command object: missing, [None], or the
    integer that [build_ext.finalize_options] made of the option. *)
Inductive parallel_attr :=
| NoAttr
| PyNone
| PyInt (n : Z).

(** The state of a [CMakeBuild] instance that the script reads. *)
Record CMakeBuild := mkCMakeBuild {
  COMPONENTS : list Component;
  build_temp : string;
  build_lib : string;
  parallel : parallel_attr;
}.

(** The class attribute [CMakeBuild.COMPONENTS]. *)
Definition class_COMPONENTS : list Component :=
  [ mkComponent "context-transport-primitives"
      "https://github.com/iowarp/context-transport-primitives"
      (Some [ "-DHSHM_ENABLE_CUDA=OFF"; "-DHSHM_ENABLE_ROCM=OFF";
              "-DHSHM_ENABLE_MPI=OFF"; "-DHSHM_ENABLE_ZMQ=OFF" ]);
    mkComponent "runtime" "https://github.com/iowarp/runtime" (Some []);
    mkComponent "context-transfer-engine"
      "https://github.com/iowarp/context-transfer-engine" (Some []);
    mkComponent "context-assimilation-engine"
      "https://github.com/iowarp/context-assimilation-engine" (Some []) ].

(** [hasattr(self, "parallel") and self.parallel]: the attribute exists and
    is truthy, that is, a non-zero integer. *)
Definition parallel_given (a : parallel_attr) : option Z :=
  match a with
  | PyInt n => if n =? 0 then None else Some n
  | _ => None
  end.

(** The list [cmake_configure_args] of [build_component] once it is complete:
    the fixed head, the component's own arguments, then the output directory
    on a platform whose name starts with [win].  [source_dir] and
    [install_prefix] are the texts of the two paths. *)
Definition cmake_configure_args (platform lib source_dir install_prefix : string)
    (args : list string) : list string :=
  [ "cmake"; source_dir;
    "-DCMAKE_INSTALL_PREFIX=" +:+ install_prefix;
    "-DCMAKE_BUILD_TYPE=Release";
    "-DBUILD_SHARED_LIBS=ON";
    "-DBUILD_TESTING=OFF" ]
  ++ args
  ++ (if Text.startswith "win" platform
      then ["-DCMAKE_LIBRARY_OUTPUT_DIRECTORY=" +:+ lib]
      else []).

(** The list [build_args] of [build_component] once it is complete. *)
Definition build_args (par : parallel_attr) (cpus : Z) : list string :=
  [ "cmake"; "--build"; "."; "--config"; "Release" ]
  ++ (match parallel_given par with
      | Some n => ["--parallel"; Text.str_of_Z n]
      | None => ["--parallel"; Text.str_of_Z cpus]
      end).

Definition install_args : list string := [ "cmake"; "--install"; "." ].

Definition rule : string := Text.repeat_str "=" 60.

Definition toolchain_msg : string :=
  "CMake must be installed to build iowarp-core. " +:+
  "Install with: pip install cmake".

Section Program.
Context `{Flavour}.
Variable host : Host.

(** The three paths [build_component] derives. *)
Definition source_dir (bt : Path) (c : Component) : Path :=
  joinpath bt (name c).
Definition build_dir (bt : Path) (c : Component) : Path :=
  joinpath bt (name c +:+ "-build").
Definition install_prefix : Path :=
  absolute (getcwd host) (of_str (sys_prefix host)).

(** The argument vectors of the four external calls of a component. *)
Definition clone_argv (bt : Path) (c : Component) : list string :=
  [ "git"; "clone"; repo c; Pathlib.str (source_dir bt c) ].
Definition configure_argv (self : CMakeBuild) (bt : Path) (c : Component)
  : list string :=
  cmake_configure_args (sys_platform host) (build_lib self)
    (Pathlib.str (source_dir bt c)) (Pathlib.str install_prefix)
    (default [] (cmake_args c)).

(** Lines 90-95: clone the repository if it is not already present. *)
Definition acquire (c : Component) (bt : Path) : M unit :=
  present <- exists_ (source_dir bt c) ;;
  if negb present then
    print ("Cloning " +:+ repo c +:+ "...") ;;
    check_call host (clone_argv bt c) None
  else
    print ("Using existing source at " +:+ Pathlib.str (source_dir bt c)).

(** Lines 97-117: create the build directory and configure. *)
Definition configure (self : CMakeBuild) (c : Component) (bt : Path)
  : M unit :=
  mkdir_p (build_dir bt c) ;;
  print "Configuring with CMake..." ;;
  print ("Command: " +:+ Text.join " " (configure_argv self bt c)) ;;
  check_call host (configure_argv self bt c) (Some (build_dir bt c)).

(** Lines 119-131: build. *)
Definition compile (self : CMakeBuild) (c : Component) (bt : Path)
  : M unit :=
  print ("Building " +:+ name c +:+ "...") ;;
  check_call host (build_args (parallel self) (cpu_count host))
    (Some (build_dir bt c)).

(** Lines 133-136: install. *)
Definition install (c : Component) (bt : Path) : M unit :=
  print ("Installing " +:+ name c +:+ "...") ;;
  check_call host install_args (Some (build_dir bt c)).

(** [CMakeBuild.build_component(self, component, build_temp)]. *)
Definition build_component (self : CMakeBuild) (c : Component) (bt : Path)
  : M unit :=
  print (Text.nl +:+ rule) ;;
  print ("Building component: " +:+ name c) ;;
  print (rule +:+ Text.nl) ;;
  acquire c bt ;;
  configure self c bt ;;
  compile self c bt ;;
  install c bt ;;
  print (Text.nl +:+ name c +:+ " built and installed successfully!"
         +:+ Text.nl).

(** Lines 59-69 of [run]: the probe of cmake and the scratch directory;
    gives the absolute [build_temp]. *)
Definition run_setup (self : CMakeBuild) : M Path :=
  except_OSError (check_output host [ "cmake"; "--version" ])
                 (RuntimeError toolchain_msg) ;;
  let bt := absolute (getcwd host) (of_str (build_temp self)) in
  mkdir_p bt ;;
  ret bt.

(** [CMakeBuild.run(self)]. *)
Definition run (self : CMakeBuild) : M unit :=
  bt <- run_setup self ;;
  for_each (COMPONENTS self) (fun c => build_component self c bt).
End Program.

(** ** Vocabulary of the properties *)

(** The line that opens the treatment of a component. *)
Definition header (c : Component) : event :=
  EPrint ("Building component: " +:+ name c).

(** A call of the version-control client. *)
Definition is_vcs_call (e : event) : bool :=
  match e with
  | ESpawn (tool :: _) _ => String.eqb tool "git"
  | _ => false
  end.

Definition vcs_invoked (evs : list event) : bool := existsb is_vcs_call evs.

(** The version probe of [run]. *)
Definition probe_argv : list string := [ "cmake"; "--version" ].



(** Options of [git clone] that make the clone shallow or partial. *)
Definition is_shallow_or_partial_flag (a : string) : bool :=
  Text.startswith "--depth" a || Text.startswith "--shallow-" a
  || Text.startswith "--filter" a || String.eqb a "--single-branch"
  || String.eqb a "--sparse".

(** Options of [git clone] that make it fetch the submodules too. *)
Definition is_recursive_flag (a : string) : bool :=
  String.eqb a "--recursive" || Text.startswith "--recurse-submodules" a.

(** A clone that is neither shallow nor partial and that recurses. *)
Definition full_recursive_clone (argv : list string) : bool :=
  match argv with
  | tool :: verb :: args =>
      String.eqb tool "git" && String.eqb verb "clone"
      && negb (existsb is_shallow_or_partial_flag args)
      && existsb is_recursive_flag args
  | _ => false
  end.

(** The four options every configuration gets. *)
Definition shared_defaults (install_prefix : string) : list string :=
  [ "-DCMAKE_INSTALL_PREFIX=" +:+ install_prefix;
    "-DCMAKE_BUILD_TYPE=Release";
    "-DBUILD_SHARED_LIBS=ON";
    "-DBUILD_TESTING=OFF" ].

(** The options that depend on the platform. *)
Definition platform_overrides (platform lib : string) : list string :=
  if Text.startswith "win" platform
  then ["-DCMAKE_LIBRARY_OUTPUT_DIRECTORY=" +:+ lib]
  else [].

(** The options of a configure call: what follows the tool and the source
    directory. *)
Definition option_list (argv : list string) : list string := drop 2 argv.

(** [needle in hay] on strings. *)
Fixpoint contains (needle hay : string) : bool :=
  Text.startswith needle hay
  || match hay with
     | EmptyString => false
     | String _ rest => contains needle rest
     end.

(** Some argument of [cmd] contains [n]. *)
Definition mentions (n : string) (cmd : list string) : bool :=
  existsb (contains n) cmd.

(** The install prefix that a configure call passes, if the event is one. *)
Definition configure_prefix_of (e : event) : option string :=
  match e with
  | ESpawn (tool :: _ :: flag :: _) _ =>
      if String.eqb tool "cmake"
      then Text.strip_prefix "-DCMAKE_INSTALL_PREFIX=" flag
      else None
  | _ => None
  end.

(** An event that touches no path but [src] and [bd]: a directory made is
    [bd], a process with a working directory runs in [bd], and a process
    without one is the clone of [location] into [src]. *)
Definition uses_paths (location src : string) (bd : Path) (e : event) : Prop :=
  match e with
  | EPrint _ => True
  | EMkdir p => p = bd
  | ESpawn argv (Some d) => d = bd
  | ESpawn argv None => argv = ["git"; "clone"; location; src]
  end.

(** The world [w] after the script has logged [evs]. *)
Definition logged (w : World) (evs : list event) : World :=
  mkWorld (fs w) (log w ++ evs).

(** The same command object with another registry. *)
Definition with_COMPONENTS (self : CMakeBuild) (l : list Component) : CMakeBuild :=
  mkCMakeBuild l (build_temp self) (build_lib self) (parallel self).

(** [emits P m]: whatever happens, [m] only appends to the log, and every
    event it appends satisfies [P]. *)
Definition emits {A} (P : event -> Prop) (m : M A) : Prop :=
  forall w, exists evs, log (snd (m w)) = log w ++ evs /\ Forall P evs.

(** [raises R m]: every exception that leaves [m] satisfies [R]. *)
Definition raises {A} (R : exn -> Prop) (m : M A) : Prop :=
  forall w e w', m w = (Raise e, w') -> R e.

(** What an exception that leaves [build_component] can be: the [OSError]
    of a step that could not be done, or the [CalledProcessError] of one of
    the four calls, with the non-zero status that call exited with, its
    argument vector, and no output. *)
Definition stage_error `{Flavour} (host : Host) (self : CMakeBuild)
    (c : Component) (bt : Path) (e : exn) : Prop :=
  match e with
  | CalledProcessError r cmd out =>
      r <> 0 /\ out = None
      /\ (cmd = clone_argv bt c \/ cmd = configure_argv host self bt c
          \/ cmd = build_args (parallel self) (cpu_count host)
          \/ cmd = install_args)
      /\ exists w1 cwd text f', spawn host w1 cmd cwd = Exited r text f'
  | OSError _ => True
  | RuntimeError _ => False
  end.

(** ** The trace of a component *)

Section Script.
Context `{Flavour}.
Variable host : Host.

(** What each stage logs when nothing fails, in order. *)
Definition acquire_script (bt : Path) (c : Component) (present : bool)
  : list event :=
  if present
  then [EPrint ("Using existing source at "
                +:+ Pathlib.str (source_dir bt c))]
  else [EPrint ("Cloning " +:+ repo c +:+ "...");
        ESpawn (clone_argv bt c) None].

Definition configure_script (self : CMakeBuild) (bt : Path) (c : Component)
  : list event :=
  [EMkdir (build_dir bt c);
   EPrint "Configuring with CMake...";
   EPrint ("Command: " +:+ Text.join " " (configure_argv host self bt c));
   ESpawn (configure_argv host self bt c) (Some (build_dir bt c))].

Definition compile_script (self : CMakeBuild) (bt : Path) (c : Component)
  : list event :=
  [EPrint ("Building " +:+ name c +:+ "...");
   ESpawn (build_args (parallel self) (cpu_count host))
          (Some (build_dir bt c))].

Definition install_script (bt : Path) (c : Component) : list event :=
  [EPrint ("Installing " +:+ name c +:+ "...");
   ESpawn install_args (Some (build_dir bt c))].

(** What [build_component] logs when nothing fails; [present] tells whether
    the source directory was there on entry. *)
Definition script (self : CMakeBuild) (bt : Path) (c : Component)
    (present : bool) : list event :=
  [EPrint (Text.nl +:+ rule); header c; EPrint (rule +:+ Text.nl)]
  ++ acquire_script bt c present
  ++ configure_script self bt c
  ++ compile_script self bt c
  ++ install_script bt c
  ++ [EPrint (Text.nl +:+ name c +:+ " built and installed successfully!"
              +:+ Text.nl)].

(** For each component of [cs] in turn, whether its source directory is
    there when its turn comes in a loop started in [w]. *)
Fixpoint presence (self : CMakeBuild) (bt : Path) (cs : list Component)
    (w : World) : list bool :=
  match cs with
  | [] => []
  | c :: cs' =>
      path_exists (fs w) (source_dir bt c)
      :: presence self bt cs' (snd (build_component host self c bt w))
  end.

(** The absolute scratch directory of a run. *)
Definition scratch (self : CMakeBuild) : Path :=
  absolute (getcwd host) (of_str (build_temp self)).

(** What a run may do: print; make the scratch directory or the build
    directory of a component of the registry; start the version probe or the
    clone of such a component, without working directory; start cmake in the
    build directory of such a component. *)
Definition in_footprint (self : CMakeBuild) (e : event) : Prop :=
  match e with
  | EPrint _ => True
  | EMkdir p =>
      p = scratch self
      \/ exists c, c ∈ COMPONENTS self /\ p = build_dir (scratch self) c
  | ESpawn argv None =>
      argv = probe_argv
      \/ exists c, c ∈ COMPONENTS self /\ argv = clone_argv (scratch self) c
  | ESpawn argv (Some d) =>
      head argv = Some "cmake"
      /\ exists c, c ∈ COMPONENTS self /\ d = build_dir (scratch self) c
  end.

(** What an exception that leaves [run] can be. *)
Definition run_error (self : CMakeBuild) (e : exn) : Prop :=
  e = RuntimeError toolchain_msg
  \/ (exists r out,
        r <> 0 /\ e = CalledProcessError r probe_argv (Some out))
  \/ (exists k, e = OSError k)
  \/ (exists c r cmd,
        c ∈ COMPONENTS self
        /\ e = CalledProcessError r cmd None
        /\ stage_error host self c (scratch self) e).
End Script.

(** ** Plain names *)

(** No slash in [s]. *)
Fixpoint no_slash (s : string) : bool :=
  match s with
  | EmptyString => true
  | String a r => negb (Ascii.eqb a "/") && no_slash r
  end.

(** A name that is one directory name: not empty, no slash, and neither of
    the two special names. *)
Definition plain_name (s : string) : bool :=
  no_slash s && negb (String.eqb s "") && negb (String.eqb s ".")
  && negb (String.eqb s "..").

(** ** Hosts whose tools behave *)

(** No external process removes or replaces anything that exists. *)
Definition host_keeps_files (host : Host) : Prop :=
  forall w argv cwd r out f',
    spawn host w argv cwd = Exited r out f' -> fs w ⊆ f'.

(** A clone that exits with status 0 has made its destination. *)
Definition host_clone_creates (host : Host) : Prop :=
  forall w src dst out f',
    spawn host w ["git"; "clone"; src; dst] None = Exited 0 out f' ->
    is_Some (f' !! dst).


(** [keeps m]: whatever happens, everything that exists before [m] exists
    after it. *)
Definition keeps {A} (m : M A) : Prop :=
  forall w, fs w ⊆ fs (snd (m w)).

(** [emits_from F P m]: as [emits P m], in the worlds where everything of
    [F] exists. *)
Definition emits_from {A} (F : FS) (P : event -> Prop) (m : M A) : Prop :=
  forall w, F ⊆ fs w ->
    exists evs, log (snd (m w)) = log w ++ evs /\ Forall P evs.

(** ** The directories of a run *)

(** [p] and its ancestors, from the anchor down. *)
Definition ancestors (p : Path) : list Path :=
  (fun n => mkPath (anchor p) (take n (parts p)))
    <$> seq 0 (S (length (parts p))).

(** The directories that [run] asks for: the scratch directory and the build
    directory of each component of the registry. *)
Definition mkdir_targets `{Flavour} (host : Host) (self : CMakeBuild)
  : list Path :=
  scratch host self :: (build_dir (scratch host self) <$> COMPONENTS self).

(** The path texts at which the script may make a directory: those of the
    targets and of their ancestors, which [mkdir(parents=True)] makes when
    they are missing. *)
Definition watched `{Flavour} (host : Host) (self : CMakeBuild)
  : list string :=
  Pathlib.str <$> (mkdir_targets host self ≫= ancestors).

(** One change of the filesystem during a run: a process of the footprint
    has run, or a directory is made where there was nothing, at a watched
    path. *)
Inductive fs_step `{Flavour} (host : Host) (self : CMakeBuild)
  : FS -> FS -> Prop :=
| step_process w argv cwd r out f' :
    in_footprint host self (ESpawn argv cwd) ->
    spawn host w argv cwd = Exited r out f' ->
    fs_step host self (fs w) f'
| step_mkdir f k :
    k ∈ watched host self ->
    f !! k = None ->
    fs_step host self f (<[k := Dir]> f).

(** [moves host self m]: what [m] does to the filesystem is a sequence of
    such changes. *)
Definition moves `{Flavour} (host : Host) (self : CMakeBuild) {A} (m : M A)
  : Prop :=
  forall w, rtc (fs_step host self) (fs w) (fs (snd (m w))).

(** No regular file is in the place of a directory the script may make. *)
Definition clear `{Flavour} (host : Host) (self : CMakeBuild) (f : FS)
  : Prop :=
  forall k, k ∈ watched host self -> f !! k <> Some File.

(** The tools work, as far as the script needs them and as long as no
    regular file is where it makes its directories: the version probe exits
    with status 0; so does the clone of a component of the registry whose
    source directory is not there; so do the configure, build and install
    calls of such a component, started in its build directory when that
    directory is there, and they leave that directory in place.  None of
    them puts a regular file where the script makes a directory. *)
Definition tools_work `{Flavour} (host : Host) (self : CMakeBuild) : Prop :=
  (forall w,
      clear host self (fs w) ->
      exists out f',
        spawn host w probe_argv None = Exited 0 out f'
        /\ clear host self f')
  /\ (forall w c,
        c ∈ COMPONENTS self ->
        clear host self (fs w) ->
        path_exists (fs w) (source_dir (scratch host self) c) = false ->
        exists out f',
          spawn host w (clone_argv (scratch host self) c) None
          = Exited 0 out f'
          /\ clear host self f')
  /\ (forall w c argv,
        c ∈ COMPONENTS self ->
        argv = configure_argv host self (scratch host self) c
        \/ argv = build_args (parallel self) (cpu_count host)
        \/ argv = install_args ->
        clear host self (fs w) ->
        is_dir (fs w) (build_dir (scratch host self) c) = true ->
        exists out f',
          spawn host w argv (Some (build_dir (scratch host self) c))
          = Exited 0 out f'
          /\ clear host self f'
          /\ is_dir f' (build_dir (scratch host self) c) = true).

(** [works P Q m]: started on a filesystem that satisfies [P], [m] returns
    and leaves a filesystem that satisfies [Q]. *)
Definition works {A} (P Q : FS -> Prop) (m : M A) : Prop :=
  forall w, P (fs w) -> exists a w', m w = (Ok a, w') /\ Q (fs w').

(** A step that can fail: making a directory, starting a process. *)
Definition fallible (e : event) : Prop :=
  match e with
  | EPrint _ => False
  | EMkdir _ | ESpawn _ _ => True
  end.

(** [plays s m w]: from [w], [m] logs [s] and returns, or it logs [s] up to
    and including one fallible step and raises. *)
Definition plays {A} (s : list event) (m : M A) (w : World) : Prop :=
  match m w with
  | (Ok _, w') => log w' = log w ++ s
  | (Raise _, w') =>
      exists pre ev post,
        s = pre ++ ev :: post /\ fallible ev /\ log w' = log w ++ pre ++ [ev]
  end.

(** ** Statements that the script does not satisfy as they are worded *)


(** Acquisition, as worded: the clone is full and recursive. *)
Definition acquisition_full_and_recursive : Prop :=
  forall (fl : Flavour) (host : Host) (c : Component) (bt : Path) (w : World),
    path_exists (fs w) (source_dir bt c) = false ->
    exists argv cwd,
      ESpawn argv cwd ∈ new_events w (snd (acquire host c bt w))
      /\ full_recursive_clone argv = true.

(** The order of the configure options, as worded: on every platform the
    option list is something that contains the shared defaults, followed by
    the options of the component, with nothing after them. *)
Definition buildOptions_appended_last : Prop :=
  forall platform lib src pfx args,
    exists pre,
      option_list (cmake_configure_args platform lib src pfx args)
      = pre ++ args
      /\ sublist (shared_defaults pfx) pre.

(** Error reporting, as worded: the error of a failed stage names the
    component in what it carries, and carries the captured output. *)
Definition stage_errors_carry_name_and_output : Prop :=
  forall (fl : Flavour) (host : Host) (self : CMakeBuild) (c : Component)
         (bt : Path) (w w' : World) r cmd out,
    build_component host self c bt w
    = (Raise (CalledProcessError r cmd out), w') ->
    mentions (name c) cmd = true /\ out <> None.

(** Parallelism, as worded: an override, whatever it is, is the degree
    passed to the build tool. *)
Definition override_used_verbatim : Prop :=
  forall n cpus, last (build_args (PyInt n) cpus) = Some (Text.str_of_Z n).

(** ** Concrete hosts and command objects, for running the model *)

Module Demo.
Definition flavour : Flavour := Pathlib.posix.

(** The registry's first two components. *)
Definition c_first : Component :=
  mkComponent "context-transport-primitives"
    "https://github.com/iowarp/context-transport-primitives"
    (Some [ "-DHSHM_ENABLE_CUDA=OFF"; "-DHSHM_ENABLE_ROCM=OFF";
            "-DHSHM_ENABLE_MPI=OFF"; "-DHSHM_ENABLE_ZMQ=OFF" ]).
Definition c_runtime : Component :=
  mkComponent "runtime" "https://github.com/iowarp/runtime" (Some []).

(** Every process runs and succeeds; a clone makes its destination. *)
Definition spawn_ok (w : World) (argv : list string) (cwd : option Path)
  : outcome :=
  match argv with
  | [tool; verb; _; dest] =>
      if String.eqb tool "git" && String.eqb verb "clone"
      then Exited 0 "" (<[dest := Dir]> (fs w))
      else Exited 0 "" (fs w)
  | _ => Exited 0 "cmake version 3.28.1" (fs w)
  end.

(** As [spawn_ok], but configuring the source tree [src] exits with 2. *)
Definition spawn_configure_fails (src : string) (w : World)
    (argv : list string) (cwd : option Path) : outcome :=
  match argv with
  | tool :: s :: _ :: _ =>
      if String.eqb tool "cmake" && String.eqb s src
      then Exited 2 "CMake Error" (fs w)
      else spawn_ok w argv cwd
  | _ => spawn_ok w argv cwd
  end.

(** As [spawn_ok], on a host where [tool] is not installed. *)
Definition spawn_without (tool : string) (w : World) (argv : list string)
    (cwd : option Path) : outcome :=
  match argv with
  | t :: _ =>
      if String.eqb t tool then SpawnError FileNotFoundError
      else spawn_ok w argv cwd
  | [] => spawn_ok w argv cwd
  end.

(** As [spawn_ok], on a host whose cmake starts and exits with status 1. *)
Definition spawn_broken_cmake (w : World) (argv : list string)
    (cwd : option Path) : outcome :=
  match argv with
  | t :: _ =>
      if String.eqb t "cmake" then Exited 1 "cmake: cannot run" (fs w)
      else spawn_ok w argv cwd
  | [] => spawn_ok w argv cwd
  end.

(** As [spawn_ok], but every [cmake --build] prints an error and exits
    with 2. *)
Definition spawn_build_fails (w : World) (argv : list string)
    (cwd : option Path) : outcome :=
  match argv with
  | _ :: verb :: _ =>
      if String.eqb verb "--build" then Exited 2 "error: ld failed" (fs w)
      else spawn_ok w argv cwd
  | _ => spawn_ok w argv cwd
  end.

(** As [spawn_ok], with a git that refuses to clone into something that
    exists. *)
Definition spawn_careful (w : World) (argv : list string) (cwd : option Path)
  : outcome :=
  match argv with
  | [tool; verb; _; dest] =>
      if String.eqb tool "git" && String.eqb verb "clone"
      then match fs w !! dest with
           | None => Exited 0 "" (<[dest := Dir]> (fs w))
           | Some _ => Exited 128 "fatal: destination path exists" (fs w)
           end
      else Exited 0 "" (fs w)
  | _ => Exited 0 "cmake version 3.28.1" (fs w)
  end.

(** A Linux host with eight compute units, Python installed under [/usr],
    the build started in [/home/u/proj]. *)
Definition host_with
    (sp : World -> list string -> option Path -> outcome) : Host :=
  mkHost "/usr" "linux" 8 "/home/u/proj" sp.

Definition host_ok : Host := host_with spawn_ok.
Definition host_careful : Host := host_with spawn_careful.
Definition host_no_cmake : Host := host_with (spawn_without "cmake").
Definition host_broken_cmake : Host := host_with spawn_broken_cmake.
Definition host_build_fails : Host := host_with spawn_build_fails.
Definition host_runtime_fails : Host :=
  host_with (spawn_configure_fails "/home/u/proj/build/temp/runtime").

(** The command object, without and with [--parallel 4]. *)
Definition self : CMakeBuild :=
  mkCMakeBuild class_COMPONENTS "build/temp" "build/lib" PyNone.
Definition self_j4 : CMakeBuild :=
  mkCMakeBuild class_COMPONENTS "build/temp" "build/lib" (PyInt 4).

(** The absolute [build_temp] of that command object on that host. *)
Definition bt : Path := mkPath "/" ["home"; "u"; "proj"; "build"; "temp"].

(** An empty world, and one where the source tree of [runtime] is already
    there. *)
Definition w_init : World := mkWorld ∅ [].
Definition w_cloned : World :=
  mkWorld {[ "/home/u/proj/build/temp/runtime" := Dir ]} [].

(** The world after making the build directory of the first component. *)
Definition w_build_dir : World :=
  snd (@mkdir_p flavour (@build_dir flavour bt c_first) w_init).

(** A Windows build: the platform name, [build_lib], the text of the source
    directory and of the install prefix. *)
Definition win_platform : string := "win32".
Definition win_build_lib : string := "build\lib.win-amd64-cpython-312".
Definition win_source_dir : string :=
  "C:\proj\build\temp.win-amd64-cpython-312\Release\context-transport-primitives".
Definition win_prefix : string := "C:\Python312".

(** The world after a whole run on [host_careful], and on [host_ok]. *)
Definition w_done : World :=
  snd (@run flavour host_careful self w_init).
Definition w_ran : World :=
  snd (@run flavour host_ok self w_init).

(** The world after [runtime] was built on [host_ok]. *)
Definition w_built : World :=
  snd (@build_component flavour host_ok self c_runtime bt w_init).

(** Worlds where a regular file is in the place of the scratch directory,
    and of the build directory of [runtime]. *)
Definition w_scratch_is_file : World :=
  mkWorld {[ "/home/u/proj/build/temp" := File ]} [].
Definition w_build_is_file : World :=
  mkWorld {[ "/home/u/proj/build/temp/runtime-build" := File ]} [].

(** The failed build of [runtime] on [host_build_fails]. *)
Definition e_build : exn :=
  CalledProcessError 2
    [ "cmake"; "--build"; "."; "--config"; "Release"; "--parallel"; "8" ]
    None.
Definition w_build_failed : World :=
  snd (@build_component flavour host_build_fails self c_runtime bt w_init).

(** The same build, stage by stage: the world after the header, after
    [acquire] and after [configure]. *)
Definition w_header : World :=
  logged w_init [EPrint (Text.nl +:+ rule); header c_runtime;
                 EPrint (rule +:+ Text.nl)].
Definition w_acquired : World :=
  snd (@acquire flavour host_build_fails c_runtime bt w_header).
Definition w_configured : World :=
  snd (@configure flavour host_build_fails self c_runtime bt w_acquired).

(** The run on [host_runtime_fails]: the world after the set-up, after the
    first component, and when the second component, [runtime], has failed to
    configure. *)
Definition w_setup : World :=
  snd (@run_setup flavour host_runtime_fails self w_init).
Definition w_first : World :=
  snd (for_each (take 1 class_COMPONENTS)
         (fun c => @build_component flavour host_runtime_fails self c bt)
         w_setup).
Definition w_failed : World :=
  snd (@build_component flavour host_runtime_fails self c_runtime bt w_first).
Definition e_configure : exn :=
  CalledProcessError 2
    [ "cmake"; "/home/u/proj/build/temp/runtime";
      "-DCMAKE_INSTALL_PREFIX=/usr"; "-DCMAKE_BUILD_TYPE=Release";
      "-DBUILD_SHARED_LIBS=ON"; "-DBUILD_TESTING=OFF" ]
    None.

(** A host closer to a real one.  Its git refuses to clone into something
    that exists, and otherwise makes the destination with a file in it; a
    process started in a working directory leaves a file there, as cmake
    does. *)
Definition spawn_real (w : World) (argv : list string) (cwd : option Path)
  : outcome :=
  match cwd with
  | Some d =>
      Exited 0 ""
        (<[@Pathlib.str flavour d +:+ "/CMakeCache.txt" := File]> (fs w))
  | None =>
      match argv with
      | [tool; verb; _; dest] =>
          if String.eqb tool "git" && String.eqb verb "clone"
          then match fs w !! dest with
               | None =>
                   Exited 0 ""
                     (<[dest +:+ "/README.md" := File]>
                        (<[dest := Dir]> (fs w)))
               | Some _ =>
                   Exited 128 "fatal: destination path exists" (fs w)
               end
          else Exited 0 "" (fs w)
      | _ => Exited 0 "cmake version 3.28.1" (fs w)
      end
  end.
Definition host_real : Host := host_with spawn_real.

(** A project directory that holds its [setup.py]. *)
Definition w_project : World :=
  mkWorld {[ "/home/u/proj/setup.py" := File ]} [].
End Demo.

(** ** Reasoning about programs in [M] *)

Lemma bind_Ok {A B} (m : M A) (k : A -> M B) w a w1 :
  m w = (Ok a, w1) -> bind m k w = k a w1.
Proof. intros E. unfold bind. now rewrite E. Qed.

Lemma bind_Raise {A B} (m : M A) (k : A -> M B) w e w1 :
  m w = (Raise e, w1) -> bind m k w = (Raise e, w1).
Proof. intros E. unfold bind. now rewrite E. Qed.

Lemma bind_Ok_inv {A B} (m : M A) (k : A -> M B) w b w' :
  bind m k w = (Ok b, w') ->
  exists a w1, m w = (Ok a, w1) /\ k a w1 = (Ok b, w').
Proof.
  unfold bind. destruct (m w) as [[a|e] w1]; intros E.
  - eauto.
  - discriminate.
Qed.

Lemma new_events_app w w' evs :
  log w' = log w ++ evs -> new_events w w' = evs.
Proof. intros E. unfold new_events. rewrite E. apply drop_app_length. Qed.

Create HintDb prog discriminated.

Section Logic.
Context `{Flavour}.
Variable host : Host.
Variable P : event -> Prop.
Variable R : exn -> Prop.

Lemma emits_ret {A} (a : A) : emits P (ret a).
Proof. intros w. exists []. simpl. now rewrite app_nil_r. Qed.

Lemma emits_raise {A} e : emits P (@raise A e).
Proof. intros w. exists []. simpl. now rewrite app_nil_r. Qed.

Lemma emits_emit ev : P ev -> emits P (emit ev).
Proof. intros Hev w. exists [ev]. simpl. auto. Qed.

Lemma emits_print text : P (EPrint text) -> emits P (print text).
Proof. apply emits_emit. Qed.

Lemma emits_bind {A B} (m : M A) (k : A -> M B) :
  emits P m -> (forall a, emits P (k a)) -> emits P (bind m k).
Proof.
  intros Hm Hk w. unfold bind.
  destruct (Hm w) as (ev1 & L1 & F1).
  destruct (m w) as [[a|e] w1]; simpl in L1.
  - destruct (Hk a w1) as (ev2 & L2 & F2).
    exists (ev1 ++ ev2). rewrite L2, L1, app_assoc.
    split; [reflexivity | now apply Forall_app].
  - exists ev1. auto.
Qed.

(** The events of [m ;; k] are those of [m], then some of [k]. *)
Lemma bind_log {A B} (m : M A) (k : A -> M B) w ev1 :
  log (snd (m w)) = log w ++ ev1 ->
  (forall a, emits P (k a)) ->
  exists ev2, log (snd (bind m k w)) = log w ++ ev1 ++ ev2 /\ Forall P ev2.
Proof.
  intros L1 Hk. unfold bind.
  destruct (m w) as [[a|e] w1]; simpl in L1.
  - destruct (Hk a w1) as (ev2 & L2 & F2).
    exists ev2. rewrite L2, L1, app_assoc. auto.
  - exists []. rewrite app_nil_r. auto.
Qed.

Lemma emits_for_each {A} (l : list A) (body : A -> M unit) :
  (forall x, emits P (body x)) -> emits P (for_each l body).
Proof.
  intros Hb. induction l as [|x xs IH]; simpl.
  - apply emits_ret.
  - apply emits_bind; auto.
Qed.

Lemma emits_except {A} (m : M A) e : emits P m -> emits P (except_OSError m e).
Proof.
  intros Hm w. unfold except_OSError.
  destruct (Hm w) as (evs & L & F).
  destruct (m w) as [[a|[]] w1]; simpl in *; eauto.
Qed.

Lemma emits_exists p : emits P (exists_ p).
Proof. intros w. exists []. simpl. now rewrite app_nil_r. Qed.

Lemma emits_mkdir_p p : P (EMkdir p) -> emits P (mkdir_p p).
Proof.
  intros Hp w. exists [EMkdir p]. unfold mkdir_p.
  destruct (path_mkdir _ _ _ _ _); simpl; auto.
Qed.

Lemma emits_check_call argv cwd :
  P (ESpawn argv cwd) -> emits P (check_call host argv cwd).
Proof.
  intros Hp w. exists [ESpawn argv cwd]. unfold check_call.
  destruct (spawn host w argv cwd); [|case_bool_decide]; simpl; auto.
Qed.

Lemma emits_check_output argv :
  P (ESpawn argv None) -> emits P (check_output host argv).
Proof.
  intros Hp w. exists [ESpawn argv None]. unfold check_output.
  destruct (spawn host w argv None); [|case_bool_decide]; simpl; auto.
Qed.

Lemma raises_ret {A} (a : A) : raises R (ret a).
Proof. intros w e w' E. discriminate. Qed.

Lemma raises_emit ev : raises R (emit ev).
Proof. intros w e w' E. discriminate. Qed.

Lemma raises_bind {A B} (m : M A) (k : A -> M B) :
  raises R m -> (forall a, raises R (k a)) -> raises R (bind m k).
Proof.
  intros Hm Hk w e w'. unfold bind.
  destruct (m w) as [[a|e1] w1] eqn:E; intros E2.
  - eapply Hk; eauto.
  - inversion E2; subst. eapply Hm; eauto.
Qed.

Lemma raises_for_each {A} (l : list A) (body : A -> M unit) :
  (forall x, raises R (body x)) -> raises R (for_each l body).
Proof.
  intros Hb. induction l as [|x xs IH]; simpl.
  - apply raises_ret.
  - apply raises_bind; auto.
Qed.

Lemma raises_exists p : raises R (exists_ p).
Proof. intros w e w' E. discriminate. Qed.

Lemma raises_mkdir_p p : (forall k, R (OSError k)) -> raises R (mkdir_p p).
Proof.
  intros HR w e w'. unfold mkdir_p.
  destruct (path_mkdir _ _ _ _ _); intros E; inversion E; subst; auto.
Qed.

Lemma raises_for_each_in {A} (l : list A) (body : A -> M unit) :
  (forall x, x ∈ l -> raises R (body x)) -> raises R (for_each l body).
Proof.
  induction l as [|x xs IH]; intros Hb; simpl.
  - apply raises_ret.
  - apply raises_bind.
    + apply Hb. left.
    + intros _. apply IH. intros y Hy. apply Hb. now right.
Qed.

Lemma emits_for_each_in {A} (l : list A) (body : A -> M unit) :
  (forall x, x ∈ l -> emits P (body x)) -> emits P (for_each l body).
Proof.
  induction l as [|x xs IH]; intros Hb; simpl.
  - apply emits_ret.
  - apply emits_bind.
    + apply Hb. left.
    + intros _. apply IH. intros y Hy. apply Hb. now right.
Qed.

Lemma raises_check_call argv cwd :
  (forall k, R (OSError k)) ->
  (forall w r out f', spawn host w argv cwd = Exited r out f' -> r <> 0 ->
     R (CalledProcessError r argv None)) ->
  raises R (check_call host argv cwd).
Proof.
  intros HO HC w e w'. unfold check_call.
  destruct (spawn host w argv cwd) eqn:E; [|case_bool_decide];
    intros E'; inversion E'; subst; eauto.
Qed.
End Logic.

#[global] Hint Resolve emits_ret emits_raise emits_print emits_bind
  emits_for_each emits_except emits_exists emits_mkdir_p emits_check_call
  emits_check_output : prog.
#[global] Hint Resolve raises_ret raises_emit raises_bind raises_for_each
  raises_exists raises_mkdir_p raises_check_call : prog.

(** Follow the structure of the script down to its primitive steps, leaving
    what has to hold of each event, or of each exception. *)
Ltac emits_steps :=
  unfold run, run_setup, build_component, acquire, configure, compile, install;
  repeat first
    [ apply emits_bind; [|intros ?]
    | apply emits_for_each; intros ?
    | apply emits_except
    | match goal with
      | |- emits _ (if ?b then _ else _) => destruct b
      end
    | apply emits_print
    | apply emits_mkdir_p
    | apply emits_check_call
    | apply emits_check_output
    | apply emits_ret
    | apply emits_exists ].

Ltac emits_stages := emits_steps; auto 10 with prog.

Ltac raises_steps :=
  unfold build_component, acquire, configure, compile, install;
  repeat first
    [ apply raises_bind; [|intros ?]
    | apply raises_for_each; intros ?
    | match goal with
      | |- raises _ (if ?b then _ else _) => destruct b
      end
    | apply raises_emit
    | apply raises_mkdir_p
    | apply raises_check_call
    | apply raises_ret
    | apply raises_exists ].

(** *** Loops *)

Lemma for_each_app {A} (l1 l2 : list A) (body : A -> M unit) w :
  for_each (l1 ++ l2) body w =
  match for_each l1 body w with
  | (Ok _, w1) => for_each l2 body w1
  | (Raise e, w1) => (Raise e, w1)
  end.
Proof.
  revert w. induction l1 as [|x xs IH]; intros w; simpl.
  - reflexivity.
  - unfold bind. destruct (body x w) as [[[]|e] w1]; auto.
Qed.

(** A loop that raised when the body raised on the element at [i], after the
    elements before it went through. *)
Lemma for_each_stops {A} (l : list A) (body : A -> M unit) i x w wi e w' :
  l !! i = Some x ->
  for_each (take i l) body w = (Ok tt, wi) ->
  body x wi = (Raise e, w') ->
  for_each l body w = (Raise e, w').
Proof.
  intros Hx Hpre Hfail.
  rewrite <- (take_drop_middle l i x Hx), for_each_app, Hpre.
  simpl. now rewrite (bind_Raise _ _ _ _ _ Hfail).
Qed.

(** A loop that returned went through every element, each in the world its
    predecessors left. *)
Lemma for_each_Ok_inv {A} (l : list A) (body : A -> M unit) i x w w' :
  l !! i = Some x ->
  for_each l body w = (Ok tt, w') ->
  exists wi wi', for_each (take i l) body w = (Ok tt, wi)
                 /\ body x wi = (Ok tt, wi').
Proof.
  intros Hx. rewrite <- (take_drop_middle l i x Hx) at 1.
  rewrite for_each_app.
  destruct (for_each (take i l) body w) as [[[]|e] wi]; [|discriminate].
  simpl. intros E. apply bind_Ok_inv in E as ([] & wi' & E1 & _). eauto.
Qed.

Lemma elem_of_sublist_singleton {A} (x : A) l : x ∈ l -> sublist [x] l.
Proof.
  intros (l1 & l2 & ->)%list_elem_of_split.
  apply sublist_inserts_l. constructor. apply sublist_nil_l.
Qed.

(** When every round logs [hd x], the events of a loop that went through [l]
    contain the [hd x] of [l] in the order of [l]. *)
Lemma for_each_heads {A} (body : A -> M unit) (hd : A -> event) :
  (forall x w, exists evs,
      log (snd (body x w)) = log w ++ evs /\ hd x ∈ evs) ->
  forall l w w', for_each l body w = (Ok tt, w') ->
  exists evs, log w' = log w ++ evs /\ sublist (map hd l) evs.
Proof.
  intros Hb. induction l as [|x xs IH]; intros w w' E; simpl in *.
  - inversion E; subst. exists []. rewrite app_nil_r. split; constructor.
  - apply bind_Ok_inv in E as ([] & w1 & E1 & E2).
    destruct (Hb x w) as (ev1 & L1 & In1). rewrite E1 in L1. simpl in L1.
    destruct (IH _ _ E2) as (ev2 & L2 & S2).
    exists (ev1 ++ ev2). split.
    + rewrite L2, L1, <- app_assoc. reflexivity.
    + change (hd x :: map hd xs) with ([hd x] ++ map hd xs).
      apply sublist_app; [now apply elem_of_sublist_singleton | exact S2].
Qed.

(** *** Traces *)

Lemma plays_emit_print text w : plays [EPrint text] (print text) w.
Proof. reflexivity. Qed.

Lemma plays_bind {A B} (m : M A) (k : A -> M B) s1 s2 w :
  plays s1 m w ->
  (forall a w1, m w = (Ok a, w1) -> plays s2 (k a) w1) ->
  plays (s1 ++ s2) (bind m k) w.
Proof.
  unfold plays, bind. destruct (m w) as [[a|e] w1].
  - intros L1 Hk. specialize (Hk a w1 eq_refl).
    destruct (k a w1) as [[b|e] w2].
    + rewrite Hk, L1, app_assoc. reflexivity.
    + destruct Hk as (pre & ev & post & -> & Hf & L2).
      exists (s1 ++ pre), ev, post.
      rewrite L2, L1, <- !app_assoc. auto.
  - intros (pre & ev & post & -> & Hf & L1) _.
    exists pre, ev, (post ++ s2). rewrite <- app_assoc. auto.
Qed.

(** The same, when the first step cannot fail and does not change what the
    second one logs. *)
Lemma plays_print_bind {B} text (k : unit -> M B) s w :
  plays s (k tt) (mkWorld (fs w) (log w ++ [EPrint text])) ->
  plays (EPrint text :: s) (bind (print text) k) w.
Proof.
  intros Hk. apply (plays_bind (print text) k [EPrint text] s w).
  - reflexivity.
  - intros [] w1 [= <-]. exact Hk.
Qed.

Lemma plays_mkdir_p `{Flavour} p w : plays [EMkdir p] (mkdir_p p) w.
Proof.
  unfold plays, mkdir_p. destruct (path_mkdir _ _ _ _ _); simpl.
  - exists [], (EMkdir p), []. simpl. auto.
  - reflexivity.
Qed.

Lemma plays_check_call host argv cwd w :
  plays [ESpawn argv cwd] (check_call host argv cwd) w.
Proof.
  unfold plays, check_call.
  destruct (spawn host w argv cwd); [|case_bool_decide]; simpl;
    try reflexivity; exists [], (ESpawn argv cwd), []; simpl; auto.
Qed.

(** * Properties of the orchestration *)

Section Orchestration.
Context `{Flavour}.
Variable host : Host.

(** [build_component] only appends to the log. *)
Lemma build_component_emits self c bt :
  emits (fun _ => True) (build_component host self c bt).
Proof.
  unfold build_component. emits_stages.
Qed.

Lemma bind_print {B} text (k : unit -> M B) w :
  bind (print text) k w = k tt (mkWorld (fs w) (log w ++ [EPrint text])).
Proof. reflexivity. Qed.

(** Whatever happens next, [build_component] has announced its component. *)
Lemma build_component_header self c bt w :
  exists evs,
    log (snd (build_component host self c bt w)) = log w ++ evs
    /\ header c ∈ evs.
Proof.
  unfold build_component. rewrite !bind_print.
  match goal with |- context [bind ?m ?k ?w1] =>
    destruct (emits_bind (fun _ => True) m k) with (w := w1)
      as (evs & L & _) end.
  - emits_stages.
  - intros _. emits_stages.
  - exists (EPrint (Text.nl +:+ rule) :: header c
            :: EPrint (rule +:+ Text.nl) :: evs).
    rewrite L. simpl. rewrite <- !app_assoc. simpl.
    split; [reflexivity|]. unfold header. set_solver.
Qed.

(** What [acquire] does when the source tree is there: one line, nothing
    else. *)
Lemma acquire_present c bt w :
  path_exists (fs w) (source_dir bt c) = true ->
  acquire host c bt w
  = (Ok tt,
     mkWorld (fs w)
       (log w ++ [EPrint ("Using existing source at "
                          +:+ Pathlib.str (source_dir bt c))])).
Proof. intros E. unfold acquire, bind, exists_. now rewrite E. Qed.

(** What [acquire] does when the source tree is not there: one line and
    one clone, whatever the clone gives. *)
Lemma acquire_absent c bt w :
  path_exists (fs w) (source_dir bt c) = false ->
  log (snd (acquire host c bt w))
  = log w ++ [EPrint ("Cloning " +:+ repo c +:+ "...");
              ESpawn (clone_argv bt c) None].
Proof.
  intros E. unfold acquire, bind at 1, exists_. rewrite E. simpl.
  rewrite bind_print. unfold check_call. simpl.
  destruct (spawn host _ _ _); [|case_bool_decide]; simpl;
    now rewrite <- app_assoc.
Qed.

Lemma not_vcs_existsb evs :
  Forall (fun e => is_vcs_call e = false) evs -> vcs_invoked evs = false.
Proof.
  unfold vcs_invoked. induction 1 as [|e evs He _ IH]; simpl.
  - reflexivity.
  - now rewrite He, IH.
Qed.

(** The stages after [acquire] never call the version-control client. *)
Lemma after_acquire_no_vcs self c bt :
  emits (fun e => is_vcs_call e = false)
    (configure host self c bt ;; compile host self c bt ;;
     install host c bt ;;
     print (Text.nl +:+ name c +:+ " built and installed successfully!"
            +:+ Text.nl)).
Proof. emits_stages. Qed.

(** C2. Acquisition is idempotent.  When the source directory of a
    component exists, [acquire] returns without starting any process and
    leaves the filesystem as it was; when it does not exist, [acquire]
    starts exactly the clone; and in the whole of [build_component] the
    version-control client is called if and only if the source directory
    did not exist on entry. *)
Theorem acquisition_idempotent self c bt w :
  (path_exists (fs w) (source_dir bt c) = true ->
     acquire host c bt w
     = (Ok tt,
        mkWorld (fs w)
          (log w ++ [EPrint ("Using existing source at "
                             +:+ Pathlib.str (source_dir bt c))])))
  /\ (path_exists (fs w) (source_dir bt c) = false ->
        new_events w (snd (acquire host c bt w))
        = [EPrint ("Cloning " +:+ repo c +:+ "...");
           ESpawn (clone_argv bt c) None])
  /\ vcs_invoked (new_events w (snd (build_component host self c bt w)))
     = negb (path_exists (fs w) (source_dir bt c)).
Proof.
  split; [apply acquire_present | split].
  - intros E. apply new_events_app. now apply acquire_absent.
  - unfold build_component. rewrite !bind_print.
    match goal with |- context [bind (acquire host c bt) ?k ?w1] =>
      set (rest := k); set (w3 := w1) end.
    destruct (path_exists (fs w) (source_dir bt c)) eqn:E.
    + destruct (bind_log (fun e => is_vcs_call e = false)
                  (acquire host c bt) rest w3 _
                  (f_equal (fun x => log (snd x)) (acquire_present c bt w3 E))
                  (fun _ => after_acquire_no_vcs self c bt))
        as (ev2 & L & F).
      erewrite new_events_app
        by (rewrite L; subst w3; simpl; rewrite <- !app_assoc; reflexivity).
      simpl. now apply not_vcs_existsb.
    + destruct (bind_log (fun e => is_vcs_call e = false)
                  (acquire host c bt) rest w3 _
                  (acquire_absent c bt w3 E)
                  (fun _ => after_acquire_no_vcs self c bt))
        as (ev2 & L & F).
      erewrite new_events_app
        by (rewrite L; subst w3; simpl; rewrite <- !app_assoc; reflexivity).
      reflexivity.
Qed.

(** *** The clone *)

Lemma startswith_head a p b s :
  Ascii.eqb a b = false -> Text.startswith (String a p) (String b s) = false.
Proof.
  intros E. unfold Text.startswith.
  change (Text.strip_prefix (String a p) (String b s))
    with (if Ascii.eqb a b then Text.strip_prefix p s else None).
  now rewrite E.
Qed.

(** An argument that does not start with a dash is no option of the clone. *)
Lemma no_dash_no_flag a :
  Text.startswith "-" a = false ->
  is_shallow_or_partial_flag a = false /\ is_recursive_flag a = false.
Proof.
  unfold is_shallow_or_partial_flag, is_recursive_flag.
  destruct a as [|ch r]; [split; reflexivity|].
  intros Hs. destruct (Ascii.eqb "-" ch) eqn:E.
  - exfalso. unfold Text.startswith in Hs.
    change (Text.strip_prefix "-" (String ch r))
      with (if Ascii.eqb "-" ch then Some r else None) in Hs.
    rewrite E in Hs. discriminate.
  - assert (Heq : forall t, String.eqb (String ch r) (String "-" t) = false).
    { intros t. apply String.eqb_neq. intros [= -> _].
      now rewrite Ascii.eqb_refl in E. }
    rewrite !(startswith_head _ _ _ _ E), !Heq. split; reflexivity.
Qed.

(** C4, as the script has it.  When the source directory of a component does
    not exist, [acquire] starts exactly one process: [git clone] with the
    source location and the source directory as its only two arguments.
    When neither of them starts with a dash the call has no option at all:
    none that makes the clone shallow or partial, and none that makes it
    recurse into submodules. *)
Theorem clone_is_full_not_recursive c bt w :
  path_exists (fs w) (source_dir bt c) = false ->
  Text.startswith "-" (repo c) = false ->
  Text.startswith "-" (Pathlib.str (source_dir bt c)) = false ->
  new_events w (snd (acquire host c bt w))
  = [EPrint ("Cloning " +:+ repo c +:+ "...");
     ESpawn ["git"; "clone"; repo c; Pathlib.str (joinpath bt (name c))] None]
  /\ existsb is_shallow_or_partial_flag
       [repo c; Pathlib.str (joinpath bt (name c))] = false
  /\ existsb is_recursive_flag
       [repo c; Pathlib.str (joinpath bt (name c))] = false.
Proof.
  intros Habsent Hrepo Hdir.
  destruct (no_dash_no_flag _ Hrepo) as [S1 R1].
  destruct (no_dash_no_flag _ Hdir) as [S2 R2].
  unfold source_dir in *. split; [|split].
  - apply new_events_app. now apply acquire_absent.
  - simpl. now rewrite S1, S2.
  - simpl. now rewrite R1, R2.
Qed.

(** *** The configure call *)

Lemma cmake_configure_args_shape platform lib src pfx args :
  cmake_configure_args platform lib src pfx args
  = ["cmake"; src] ++ shared_defaults pfx ++ args
    ++ platform_overrides platform lib.
Proof. reflexivity. Qed.

(** What [configure] does once the build directory is there. *)
Lemma configure_events self c bt w w1 :
  mkdir_p (build_dir bt c) w = (Ok tt, w1) ->
  log (snd (configure host self c bt w))
  = log w ++ [EMkdir (build_dir bt c);
              EPrint "Configuring with CMake...";
              EPrint ("Command: "
                      +:+ Text.join " " (configure_argv host self bt c));
              ESpawn (configure_argv host self bt c) (Some (build_dir bt c))].
Proof.
  intros E. unfold configure. rewrite (bind_Ok _ _ _ _ _ E), !bind_print.
  assert (L1 : log w1 = log w ++ [EMkdir (build_dir bt c)]).
  { unfold mkdir_p in E. destruct (path_mkdir _ _ _ _ _); inversion E.
    reflexivity. }
  unfold check_call.
  destruct (spawn host _ _ _); [|case_bool_decide]; simpl;
    rewrite L1, <- !app_assoc; reflexivity.
Qed.

(** C5, as the script has it.  Once the build directory is there,
    [configure] starts one process, in the build directory: cmake, the source
    directory, the four shared defaults, the options of the component, and
    then what the platform adds.  On a platform whose name does not start
    with [win] nothing is added, so the options of the component come last;
    on one whose name starts with [win] one output-directory option follows
    them. *)
Theorem configure_flag_order self c bt w w1 :
  mkdir_p (build_dir bt c) w = (Ok tt, w1) ->
  exists argv,
    new_events w (snd (configure host self c bt w))
    = [EMkdir (build_dir bt c);
       EPrint "Configuring with CMake...";
       EPrint ("Command: " +:+ Text.join " " argv);
       ESpawn argv (Some (build_dir bt c))]
    /\ argv = ["cmake"; Pathlib.str (source_dir bt c)]
              ++ shared_defaults (Pathlib.str (install_prefix host))
              ++ default [] (cmake_args c)
              ++ platform_overrides (sys_platform host) (build_lib self)
    /\ (Text.startswith "win" (sys_platform host) = false ->
          option_list argv
          = shared_defaults (Pathlib.str (install_prefix host))
            ++ default [] (cmake_args c))
    /\ (Text.startswith "win" (sys_platform host) = true ->
          option_list argv
          = shared_defaults (Pathlib.str (install_prefix host))
            ++ default [] (cmake_args c)
            ++ ["-DCMAKE_LIBRARY_OUTPUT_DIRECTORY=" +:+ build_lib self]).
Proof.
  intros E. exists (configure_argv host self bt c).
  split; [|split; [|split]].
  - apply new_events_app. eapply configure_events; eauto.
  - apply cmake_configure_args_shape.
  - intros Hp. unfold configure_argv.
    rewrite cmake_configure_args_shape. unfold platform_overrides.
    rewrite Hp, app_nil_r. reflexivity.
  - intros Hp. unfold configure_argv.
    rewrite cmake_configure_args_shape. unfold platform_overrides.
    rewrite Hp. reflexivity.
Qed.

(** *** Errors of the stages *)

Lemma build_component_raises self c bt :
  raises (stage_error host self c bt) (build_component host self c bt).
Proof.
  raises_steps; try (intros; exact I);
    intros w1 r text f' Hs Hr; simpl;
    (split; [exact Hr|]); (split; [reflexivity|]);
    (split; [tauto|]); eauto.
Qed.


(** *** The build call *)

Lemma compile_events self c bt w :
  log (snd (compile host self c bt w))
  = log w ++ [EPrint ("Building " +:+ name c +:+ "...");
              ESpawn (build_args (parallel self) (cpu_count host))
                     (Some (build_dir bt c))].
Proof.
  unfold compile. rewrite bind_print. unfold check_call.
  destruct (spawn host _ _ _); [|case_bool_decide]; simpl;
    rewrite <- !app_assoc; reflexivity.
Qed.

(** C7, as the script has it.  [compile] starts one process, the build, and
    passes it a degree of parallelism: the override when there is one and it
    is not zero, and the number of compute units of the host when there is no
    override or when the override is zero. *)
Theorem parallelism_resolution self c bt w :
  exists degree,
    new_events w (snd (compile host self c bt w))
    = [EPrint ("Building " +:+ name c +:+ "...");
       ESpawn ["cmake"; "--build"; "."; "--config"; "Release";
               "--parallel"; degree]
              (Some (build_dir bt c))]
    /\ (forall n, parallel self = PyInt n -> n <> 0 ->
          degree = Text.str_of_Z n)
    /\ (parallel self = PyInt 0 \/ parallel self = PyNone
        \/ parallel self = NoAttr ->
        degree = Text.str_of_Z (cpu_count host)).
Proof.
  pose proof (compile_events self c bt w) as L.
  apply new_events_app in L. rewrite L. unfold build_args.
  destruct (parallel self) as [| |n] eqn:Hp; simpl.
  - eexists. split; [reflexivity|]. split; [discriminate|]. reflexivity.
  - eexists. split; [reflexivity|]. split; [discriminate|]. reflexivity.
  - destruct (Z.eqb_spec n 0) as [->|Hn].
    + eexists. split; [reflexivity|]. split.
      * intros m [= <-] Hm. congruence.
      * reflexivity.
    + eexists. split; [reflexivity|]. split.
      * intros m [= <-] _. reflexivity.
      * intros [[= ->]|[|]]; [congruence|discriminate|discriminate].
Qed.

(** *** The install prefix *)

Lemma configure_prefix_of_configure self bt c cwd :
  configure_prefix_of (ESpawn (configure_argv host self bt c) cwd)
  = Some (Pathlib.str (install_prefix host)).
Proof. reflexivity. Qed.

Lemma run_configure_prefix self :
  emits (fun e => forall p, configure_prefix_of e = Some p ->
                            p = Pathlib.str (install_prefix host))
    (run host self).
Proof.
  emits_steps; intros p Hp;
    first [ rewrite configure_prefix_of_configure in Hp; congruence
          | cbv in Hp; discriminate Hp ].
Qed.

Lemma install_events c bt w :
  log (snd (install host c bt w))
  = log w ++ [EPrint ("Installing " +:+ name c +:+ "...");
              ESpawn ["cmake"; "--install"; "."] (Some (build_dir bt c))].
Proof.
  unfold install. rewrite bind_print. unfold check_call.
  destruct (spawn host _ _ _); [|case_bool_decide]; simpl;
    rewrite <- !app_assoc; reflexivity.
Qed.


(** *** Directories *)

Lemma os_mkdir_FileNotFound f p :
  os_mkdir f p = inl FileNotFoundError -> parts p <> [].
Proof.
  unfold os_mkdir, stat. destruct (parts p); [discriminate|]. discriminate.
Qed.

(** Without [parents] there is no climb, so the fuel does not matter. *)
Lemma path_mkdir_flat n m exist_ok p f :
  path_mkdir n false exist_ok p f = path_mkdir m false exist_ok p f.
Proof.
  destruct n, m; simpl; destruct (os_mkdir f p) as [[]|]; reflexivity.
Qed.

(** The fuel that [mkdir_p] gives, the number of components of the path, is
    enough: more fuel gives the same result. *)
Lemma path_mkdir_fuel n parents exist_ok p f :
  (length (parts p) <= n)%nat ->
  path_mkdir n parents exist_ok p f
  = path_mkdir (length (parts p)) parents exist_ok p f.
Proof.
  revert parents exist_ok p f.
  induction n as [|n IH]; intros parents exist_ok p f Hn.
  - replace (length (parts p)) with 0%nat by lia. reflexivity.
  - destruct (length (parts p)) as [|m] eqn:Hm.
    + simpl. destruct (os_mkdir f p) as [[]|] eqn:Eos; try reflexivity.
      apply os_mkdir_FileNotFound in Eos.
      destruct (parts p); [congruence|discriminate].
    + simpl. destruct (os_mkdir f p) as [[]|] eqn:Eos; try reflexivity.
      destruct (negb parents || bool_decide (Pathlib.parent p = p));
        [reflexivity|].
      assert (Hpar : length (parts (Pathlib.parent p)) = m).
      { simpl. destruct (parts p) as [|x l] using rev_ind; [discriminate|].
        rewrite removelast_last. rewrite length_app in Hm. simpl in Hm. lia. }
      rewrite (IH true true (Pathlib.parent p) f) by lia. rewrite Hpar.
      destruct (path_mkdir m true true (Pathlib.parent p) f); [reflexivity|].
      apply path_mkdir_flat.
Qed.

(** Making a directory that is there changes nothing. *)
Lemma path_mkdir_existing fuel parents p f :
  is_dir f p = true -> path_mkdir fuel parents true p f = inr f.
Proof.
  intros Hd. assert (Hs : stat f p = Some Dir).
  { unfold is_dir in Hd. now apply bool_decide_eq_true in Hd. }
  destruct fuel; simpl; unfold os_mkdir; rewrite Hs, Hd; reflexivity.
Qed.

Lemma os_mkdir_is_dir f p f' : os_mkdir f p = inr f' -> is_dir f' p = true.
Proof.
  unfold os_mkdir. destruct (stat f p) eqn:E1; [discriminate|].
  destruct (stat f (Pathlib.parent p)) as [[|]|]; try discriminate.
  intros [= <-]. unfold is_dir, stat in *.
  destruct (parts p); [discriminate|].
  apply bool_decide_eq_true. apply lookup_insert_eq.
Qed.

(** A directory that was made is there. *)
Lemma path_mkdir_is_dir fuel parents exist_ok p f f' :
  path_mkdir fuel parents exist_ok p f = inr f' -> is_dir f' p = true.
Proof.
  revert parents exist_ok p f f'.
  induction fuel as [|k IH]; intros parents exist_ok p f f'; simpl;
    destruct (os_mkdir f p) as [e|f1] eqn:Eos;
    try (intros [= <-]; now apply os_mkdir_is_dir in Eos).
  - destruct e;
      repeat match goal with
             | |- context [if ?b then _ else _] => destruct b eqn:?
             end; try discriminate;
      intros [= <-];
      apply orb_false_iff in Heqb as [_ Hd];
      now apply negb_false_iff in Hd.
  - destruct e;
      try (destruct (negb exist_ok || negb (is_dir f p)) eqn:Hb;
           [discriminate|];
           intros [= <-];
           apply orb_false_iff in Hb as [_ Hd];
           now apply negb_false_iff in Hd).
    destruct (negb parents || bool_decide (Pathlib.parent p = p));
      [discriminate|].
    destruct (path_mkdir k true true (Pathlib.parent p) f); [discriminate|].
    apply IH.
Qed.

Lemma mkdir_p_existing p w :
  is_dir (fs w) p = true ->
  mkdir_p p w = (Ok tt, mkWorld (fs w) (log w ++ [EMkdir p])).
Proof.
  intros Hd. unfold mkdir_p. now rewrite (path_mkdir_existing _ _ _ _ Hd).
Qed.

Lemma mkdir_p_is_dir p w w1 :
  mkdir_p p w = (Ok tt, w1) -> is_dir (fs w1) p = true.
Proof.
  unfold mkdir_p.
  destruct (path_mkdir _ _ _ _ _) as [e|f'] eqn:E; [discriminate|].
  intros [= <-]. simpl. eapply path_mkdir_is_dir; eauto.
Qed.

Lemma build_component_paths self c bt :
  emits (uses_paths (repo c) (Pathlib.str (joinpath bt (name c)))
                    (joinpath bt (name c +:+ "-build")))
    (build_component host self c bt).
Proof. emits_steps; simpl; auto. Qed.


(** *** The probe of [run] *)

Lemma run_probe_missing self w k :
  spawn host w probe_argv None = SpawnError k ->
  run host self w
  = (Raise (RuntimeError toolchain_msg),
     mkWorld (fs w) (log w ++ [ESpawn probe_argv None])).
Proof.
  intros E. unfold run, run_setup, bind, except_OSError, check_output.
  fold probe_argv. now rewrite E.
Qed.

Lemma run_probe_nonzero self w r out f' :
  spawn host w probe_argv None = Exited r out f' -> r <> 0 ->
  run host self w
  = (Raise (CalledProcessError r probe_argv (Some out)),
     mkWorld f' (log w ++ [ESpawn probe_argv None])).
Proof.
  intros E Hr. unfold run, run_setup, bind, except_OSError, check_output.
  fold probe_argv. rewrite E. now rewrite bool_decide_false.
Qed.

Lemma run_probe_ok self w out f' :
  spawn host w probe_argv None = Exited 0 out f' ->
  run host self w
  = (let bt := absolute (getcwd host) (of_str (build_temp self)) in
     mkdir_p bt ;;
     for_each (COMPONENTS self) (fun c => build_component host self c bt))
      (mkWorld f' (log w ++ [ESpawn probe_argv None])).
Proof.
  intros E. unfold run, run_setup, bind, except_OSError, check_output.
  fold probe_argv. rewrite E. simpl.
  destruct (mkdir_p _ _) as [[[]|e] w1]; reflexivity.
Qed.

(** After the probe, no [RuntimeError] is raised. *)
Lemma after_probe_no_RuntimeError self bt :
  raises (fun e => forall msg, e <> RuntimeError msg)
    (mkdir_p bt ;;
     for_each (COMPONENTS self) (fun c => build_component host self c bt)).
Proof. raises_steps; intros; discriminate. Qed.




(** C10. The probe, case by case.  [run] raises a [RuntimeError] exactly
    when the version probe of the generator could not be started, and it is
    then the toolchain error; a probe that starts and exits with a non-zero
    status raises the [CalledProcessError] of [check_output], with the
    captured output.  In both cases the probe is the only thing the run has
    done: no directory made, no component announced. *)
Theorem probe_edge_case self w :
  ((exists msg w', run host self w = (Raise (RuntimeError msg), w'))
   <-> (exists k, spawn host w probe_argv None = SpawnError k))
  /\ (forall k, spawn host w probe_argv None = SpawnError k ->
        run host self w
        = (Raise (RuntimeError toolchain_msg),
           mkWorld (fs w) (log w ++ [ESpawn probe_argv None])))
  /\ (forall r out f',
        spawn host w probe_argv None = Exited r out f' -> r <> 0 ->
        run host self w
        = (Raise (CalledProcessError r probe_argv (Some out)),
           mkWorld f' (log w ++ [ESpawn probe_argv None]))).
Proof.
  split; [|split].
  - split.
    + intros (msg & w' & E).
      destruct (spawn host w probe_argv None) as [k|r out f'] eqn:Es; [eauto|].
      exfalso. destruct (decide (r = 0)) as [->|Hr].
      * rewrite (run_probe_ok self w out f' Es) in E.
        exact (after_probe_no_RuntimeError self _ _ _ _ E msg eq_refl).
      * rewrite (run_probe_nonzero self w r out f' Es Hr) in E. discriminate.
    + intros (k & E). rewrite (run_probe_missing self w k E). eauto.
  - intros k. apply run_probe_missing.
  - apply run_probe_nonzero.
Qed.

(** C1. Fail-fast execution.  First part: when [run] has set up, the
    components before index [i] went through one after the other and the
    component at [i] raised, then [run] raises that exception in that very
    world; it is the run of the registry cut after index [i], so nothing of
    a later component happened; and the components [0..i] were announced,
    in registry order.  Second part: a [run] that returns has set up and
    has taken every component of the registry through
    [build_component] without an exception, each in the world its
    predecessors left, announcing them in registry order. *)
Theorem run_fail_fast :
  (forall self w bt w0 i c wi e w',
      run_setup host self w = (Ok bt, w0) ->
      COMPONENTS self !! i = Some c ->
      for_each (take i (COMPONENTS self))
               (fun c => build_component host self c bt) w0 = (Ok tt, wi) ->
      build_component host self c bt wi = (Raise e, w') ->
      run host self w = (Raise e, w')
      /\ run host (with_COMPONENTS self (take (S i) (COMPONENTS self))) w
         = (Raise e, w')
      /\ sublist (map header (take (S i) (COMPONENTS self)))
                 (new_events w0 w'))
  /\ (forall self w w',
        run host self w = (Ok tt, w') ->
        exists bt w0,
          run_setup host self w = (Ok bt, w0)
          /\ sublist (map header (COMPONENTS self)) (new_events w0 w')
          /\ forall i c, COMPONENTS self !! i = Some c ->
               exists wi wi',
                 for_each (take i (COMPONENTS self))
                          (fun c => build_component host self c bt) w0
                 = (Ok tt, wi)
                 /\ build_component host self c bt wi = (Ok tt, wi')).
Proof.
  split.
  - intros self w bt w0 i c wi e w' Hsetup Hc Hpre Hfail.
    split; [|split].
    + unfold run. rewrite (bind_Ok _ _ _ _ _ Hsetup).
      eapply for_each_stops; eauto.
    + unfold run.
      change (run_setup host (with_COMPONENTS self _)) with (run_setup host self).
      rewrite (bind_Ok _ _ _ _ _ Hsetup).
      eapply (for_each_stops _ _ i c).
      * simpl. rewrite lookup_take_lt by lia. exact Hc.
      * simpl. rewrite take_take, Nat.min_l by lia. exact Hpre.
      * exact Hfail.
    + destruct (for_each_heads _ header
                  (fun x w => build_component_header self x bt w) _ _ _ Hpre)
        as (ev1 & L1 & S1).
      destruct (build_component_header self c bt wi) as (ev2 & L2 & In2).
      rewrite Hfail in L2. simpl in L2.
      rewrite (new_events_app w0 w' (ev1 ++ ev2))
        by (rewrite L2, L1, <- app_assoc; reflexivity).
      rewrite (take_S_r _ _ _ Hc), map_app.
      apply sublist_app; [exact S1 | now apply elem_of_sublist_singleton].
  - intros self w w' Hrun. unfold run in Hrun.
    apply bind_Ok_inv in Hrun as (bt & w0 & Hsetup & Hloop).
    exists bt, w0. split; [exact Hsetup | split].
    + destruct (for_each_heads _ header
                  (fun x w => build_component_header self x bt w) _ _ _ Hloop)
        as (evs & L & S).
      now rewrite (new_events_app _ _ _ L).
    + intros i c Hc.
      exact (for_each_Ok_inv _ (fun c => build_component host self c bt)
               i c w0 w' Hc Hloop).
Qed.
End Orchestration.

(** On a host where configuring [runtime] fails, the run stops there: the
    hypotheses of the first part of [run_fail_fast] hold at index 1. *)
Lemma run_fail_fast_witness :
  @run Demo.flavour Demo.host_runtime_fails Demo.self Demo.w_init
  = (Raise Demo.e_configure, Demo.w_failed)
  /\ @run Demo.flavour Demo.host_runtime_fails
       (with_COMPONENTS Demo.self (take 2 class_COMPONENTS)) Demo.w_init
     = (Raise Demo.e_configure, Demo.w_failed)
  /\ sublist (map header (take 2 class_COMPONENTS))
             (new_events Demo.w_setup Demo.w_failed).
Proof.
  apply (proj1 (@run_fail_fast Demo.flavour Demo.host_runtime_fails)
           Demo.self Demo.w_init Demo.bt Demo.w_setup 1%nat Demo.c_runtime
           Demo.w_first Demo.e_configure Demo.w_failed);
    vm_compute; reflexivity.
Defined.

(** With the source tree of [runtime] in place [acquire] only prints; without
    it, it prints and clones. *)
Lemma acquisition_idempotent_witness :
  @acquire Demo.flavour Demo.host_ok Demo.c_runtime Demo.bt Demo.w_cloned
  = (Ok tt,
     mkWorld (fs Demo.w_cloned)
       [EPrint "Using existing source at /home/u/proj/build/temp/runtime"])
  /\ new_events Demo.w_init
       (snd (@acquire Demo.flavour Demo.host_ok Demo.c_runtime Demo.bt
               Demo.w_init))
     = [EPrint "Cloning https://github.com/iowarp/runtime...";
        ESpawn ["git"; "clone"; "https://github.com/iowarp/runtime";
                "/home/u/proj/build/temp/runtime"] None].
Proof.
  split.
  - apply (proj1 (@acquisition_idempotent Demo.flavour Demo.host_ok
                    Demo.self Demo.c_runtime Demo.bt Demo.w_cloned)).
    vm_compute. reflexivity.
  - apply (proj1 (proj2 (@acquisition_idempotent Demo.flavour Demo.host_ok
                           Demo.self Demo.c_runtime Demo.bt Demo.w_init))).
    vm_compute. reflexivity.
Defined.



(** The two failing probes: cmake missing, and cmake exiting with 1. *)
Lemma probe_edge_case_witness :
  @run Demo.flavour Demo.host_no_cmake Demo.self Demo.w_init
  = (Raise (RuntimeError toolchain_msg),
     mkWorld (fs Demo.w_init) (log Demo.w_init ++ [ESpawn probe_argv None]))
  /\ @run Demo.flavour Demo.host_broken_cmake Demo.self Demo.w_init
     = (Raise (CalledProcessError 1 probe_argv (Some "cmake: cannot run")),
        mkWorld (fs Demo.w_init)
          (log Demo.w_init ++ [ESpawn probe_argv None])).
Proof.
  split.
  - apply (proj1 (proj2 (@probe_edge_case Demo.flavour Demo.host_no_cmake
                           Demo.self Demo.w_init)) FileNotFoundError).
    reflexivity.
  - apply (proj2 (proj2 (@probe_edge_case Demo.flavour Demo.host_broken_cmake
                           Demo.self Demo.w_init))).
    + reflexivity.
    + discriminate.
Defined.

(** C4 as worded fails on the registry's own [runtime]: the clone that
    [acquire] starts has no option, so it does not recurse. *)
Lemma acquisition_recursive_counterexample :
  new_events Demo.w_init
    (snd (@acquire Demo.flavour Demo.host_ok Demo.c_runtime Demo.bt
            Demo.w_init))
  = [EPrint "Cloning https://github.com/iowarp/runtime...";
     ESpawn ["git"; "clone"; "https://github.com/iowarp/runtime";
             "/home/u/proj/build/temp/runtime"] None]
  /\ full_recursive_clone
       ["git"; "clone"; "https://github.com/iowarp/runtime";
        "/home/u/proj/build/temp/runtime"] = false
  /\ ~ acquisition_full_and_recursive.
Proof.
  assert (Hev : new_events Demo.w_init
            (snd (@acquire Demo.flavour Demo.host_ok Demo.c_runtime Demo.bt
                    Demo.w_init))
          = [EPrint "Cloning https://github.com/iowarp/runtime...";
             ESpawn ["git"; "clone"; "https://github.com/iowarp/runtime";
                     "/home/u/proj/build/temp/runtime"] None])
    by (vm_compute; reflexivity).
  split; [exact Hev|]. split; [vm_compute; reflexivity|].
  intros Hclaim.
  destruct (Hclaim Demo.flavour Demo.host_ok Demo.c_runtime Demo.bt
              Demo.w_init) as (argv & cwd & Hin & Hfull).
  { vm_compute. reflexivity. }
  rewrite Hev in Hin.
  apply elem_of_cons in Hin as [Hin|Hin]; [discriminate|].
  apply elem_of_cons in Hin as [Hin|Hin].
  - injection Hin as -> _. vm_compute in Hfull. discriminate.
  - inversion Hin.
Qed.

(** The clone of [runtime] on the demonstration host. *)
Lemma clone_is_full_not_recursive_witness :
  new_events Demo.w_init
    (snd (@acquire Demo.flavour Demo.host_ok Demo.c_runtime Demo.bt
            Demo.w_init))
  = [EPrint ("Cloning " +:+ repo Demo.c_runtime +:+ "...");
     ESpawn ["git"; "clone"; repo Demo.c_runtime;
             @Pathlib.str Demo.flavour
               (@joinpath Demo.flavour Demo.bt (name Demo.c_runtime))] None]
  /\ existsb is_shallow_or_partial_flag
       [repo Demo.c_runtime;
        @Pathlib.str Demo.flavour
          (@joinpath Demo.flavour Demo.bt (name Demo.c_runtime))] = false
  /\ existsb is_recursive_flag
       [repo Demo.c_runtime;
        @Pathlib.str Demo.flavour
          (@joinpath Demo.flavour Demo.bt (name Demo.c_runtime))] = false.
Proof.
  apply (@clone_is_full_not_recursive Demo.flavour Demo.host_ok
           Demo.c_runtime Demo.bt Demo.w_init);
    vm_compute; reflexivity.
Defined.

(** C5 as worded fails on Windows: after the options of the first component
    comes the output directory. *)
Lemma buildOptions_last_counterexample :
  option_list
    (cmake_configure_args Demo.win_platform Demo.win_build_lib
       Demo.win_source_dir Demo.win_prefix
       (default [] (cmake_args Demo.c_first)))
  = [ "-DCMAKE_INSTALL_PREFIX=C:\Python312";
      "-DCMAKE_BUILD_TYPE=Release";
      "-DBUILD_SHARED_LIBS=ON";
      "-DBUILD_TESTING=OFF";
      "-DHSHM_ENABLE_CUDA=OFF"; "-DHSHM_ENABLE_ROCM=OFF";
      "-DHSHM_ENABLE_MPI=OFF"; "-DHSHM_ENABLE_ZMQ=OFF";
      "-DCMAKE_LIBRARY_OUTPUT_DIRECTORY=build\lib.win-amd64-cpython-312" ]
  /\ ~ buildOptions_appended_last.
Proof.
  split; [vm_compute; reflexivity|].
  intros Hclaim.
  destruct (Hclaim Demo.win_platform Demo.win_build_lib Demo.win_source_dir
              Demo.win_prefix (default [] (cmake_args Demo.c_first)))
    as (pre & Heq & _).
  apply (f_equal last) in Heq. rewrite last_app in Heq.
  vm_compute in Heq. discriminate.
Qed.

(** The configure call of the first component on the demonstration host,
    which is not Windows: its own options come last. *)
Lemma configure_flag_order_witness :
  @mkdir_p Demo.flavour (@build_dir Demo.flavour Demo.bt Demo.c_first)
    Demo.w_init = (Ok tt, Demo.w_build_dir)
  /\ exists argv,
       option_list argv
       = shared_defaults "/usr"
         ++ [ "-DHSHM_ENABLE_CUDA=OFF"; "-DHSHM_ENABLE_ROCM=OFF";
              "-DHSHM_ENABLE_MPI=OFF"; "-DHSHM_ENABLE_ZMQ=OFF" ].
Proof.
  assert (Hmk : @mkdir_p Demo.flavour
                  (@build_dir Demo.flavour Demo.bt Demo.c_first) Demo.w_init
                = (Ok tt, Demo.w_build_dir)) by (vm_compute; reflexivity).
  split; [exact Hmk|].
  destruct (@configure_flag_order Demo.flavour Demo.host_ok Demo.self
              Demo.c_first Demo.bt Demo.w_init Demo.w_build_dir Hmk)
    as (argv & _ & _ & Hlast & _).
  exists argv. apply Hlast. reflexivity.
Defined.

(** C6 as worded fails when the build of [runtime] fails: the exception is
    the one of [check_call], whose arguments do not mention [runtime] and
    whose output is [None], though the process printed an error; the failed
    build of another component raises the very same exception. *)
Lemma stage_error_counterexample :
  @build_component Demo.flavour Demo.host_build_fails Demo.self
    Demo.c_runtime Demo.bt Demo.w_init
  = (Raise Demo.e_build, Demo.w_build_failed)
  /\ mentions (name Demo.c_runtime)
       [ "cmake"; "--build"; "."; "--config"; "Release"; "--parallel"; "8" ]
     = false
  /\ fst (@build_component Demo.flavour Demo.host_build_fails Demo.self
            Demo.c_first Demo.bt Demo.w_init)
     = Raise Demo.e_build
  /\ ~ stage_errors_carry_name_and_output.
Proof.
  assert (Hrun : @build_component Demo.flavour Demo.host_build_fails
                   Demo.self Demo.c_runtime Demo.bt Demo.w_init
                 = (Raise Demo.e_build, Demo.w_build_failed))
    by (vm_compute; reflexivity).
  split; [exact Hrun|].
  split; [vm_compute; reflexivity|].
  split; [vm_compute; reflexivity|].
  intros Hclaim.
  destruct (Hclaim Demo.flavour Demo.host_build_fails Demo.self
              Demo.c_runtime Demo.bt Demo.w_init Demo.w_build_failed
              _ _ _ Hrun) as [Hname Hout].
  vm_compute in Hname. discriminate.
Qed.


(** C7 as worded fails for the override 0: with eight compute units the
    degree passed is 8, not 0. *)
Lemma override_zero_counterexample :
  last (build_args (PyInt 0) 8) = Some "8"
  /\ Text.str_of_Z 0 = "0"
  /\ ~ override_used_verbatim.
Proof.
  split; [reflexivity|]. split; [reflexivity|].
  intros Hclaim. specialize (Hclaim 0 8). vm_compute in Hclaim.
  discriminate.
Qed.

(** With [--parallel 4] the degree passed is 4. *)
Lemma parallelism_resolution_witness :
  exists degree,
    degree = "4"
    /\ new_events Demo.w_init
         (snd (@compile Demo.flavour Demo.host_ok Demo.self_j4
                 Demo.c_runtime Demo.bt Demo.w_init))
       = [EPrint "Building runtime...";
          ESpawn ["cmake"; "--build"; "."; "--config"; "Release";
                  "--parallel"; degree]
                 (Some (@build_dir Demo.flavour Demo.bt Demo.c_runtime))].
Proof.
  destruct (@parallelism_resolution Demo.flavour Demo.host_ok Demo.self_j4
              Demo.c_runtime Demo.bt Demo.w_init) as (d & Hev & Hgiven & _).
  exists d. split; [|exact Hev].
  apply (Hgiven 4); [reflexivity|discriminate].
Defined.


(** * The trace of a component and of a run *)

Section Traces.
Context `{Flavour}.
Variable host : Host.

Lemma acquire_plays c bt w :
  plays (acquire_script bt c (path_exists (fs w) (source_dir bt c)))
        (acquire host c bt) w.
Proof.
  unfold acquire_script.
  destruct (path_exists (fs w) (source_dir bt c)) eqn:E.
  - unfold plays. rewrite (acquire_present host c bt w E). reflexivity.
  - unfold plays, acquire, bind at 1, exists_. rewrite E. simpl.
    change (plays [EPrint ("Cloning " +:+ repo c +:+ "...");
                   ESpawn (clone_argv bt c) None]
              (bind (print ("Cloning " +:+ repo c +:+ "..."))
                    (fun _ => check_call host (clone_argv bt c) None)) w).
    apply plays_print_bind, plays_check_call.
Qed.

Lemma configure_plays self c bt w :
  plays (configure_script host self bt c) (configure host self c bt) w.
Proof.
  unfold configure, configure_script.
  apply (plays_bind _ _ [EMkdir (build_dir bt c)]).
  - apply plays_mkdir_p.
  - intros _ w1 _. apply plays_print_bind, plays_print_bind, plays_check_call.
Qed.

Lemma compile_plays self c bt w :
  plays (compile_script host self bt c) (compile host self c bt) w.
Proof. apply plays_print_bind, plays_check_call. Qed.

Lemma install_plays c bt w :
  plays (install_script bt c) (install host c bt) w.
Proof. apply plays_print_bind, plays_check_call. Qed.

(** [build_component] plays its script. *)
Lemma build_component_plays self c bt w :
  plays (script host self bt c (path_exists (fs w) (source_dir bt c)))
        (build_component host self c bt) w.
Proof.
  unfold build_component, script, header. cbn [app].
  do 3 apply plays_print_bind.
  apply plays_bind.
  { match goal with |- plays _ _ ?w0 => exact (acquire_plays c bt w0) end. }
  intros _ w1 _.
  apply plays_bind; [apply configure_plays|]. intros _ w2 _.
  apply plays_bind; [apply compile_plays|]. intros _ w3 _.
  apply plays_bind; [apply install_plays|]. intros _ w4 _.
  apply plays_emit_print.
Qed.

(** When [build_component] returns, it has logged the whole script of the
    component, in order: the three header lines; the line of a source
    directory that is there, or the line and the clone of one that is not;
    the build directory made, the two lines and the configure call; the line
    and the build call; the line and the install call; the closing line.  So
    the stages always run in the order acquire, configure, compile, install,
    each exactly once, and configure, compile and install run even when the
    source directory was already there. *)
Theorem build_component_success_trace self c bt w w' :
  build_component host self c bt w = (Ok tt, w') ->
  new_events w w'
  = script host self bt c (path_exists (fs w) (source_dir bt c)).
Proof.
  intros E. pose proof (build_component_plays self c bt w) as Hp.
  unfold plays in Hp. rewrite E in Hp. now apply new_events_app.
Qed.

(** When [build_component] raises, it has logged its script up to and
    including the step that failed, which is the making of the build
    directory or one of the external calls, and nothing after it: no later
    line, no later stage, no second attempt.  Something of the script is
    always left undone. *)
Theorem build_component_failure_trace self c bt w e w' :
  build_component host self c bt w = (Raise e, w') ->
  exists pre ev post,
    script host self bt c (path_exists (fs w) (source_dir bt c))
    = pre ++ ev :: post
    /\ fallible ev
    /\ post <> []
    /\ new_events w w' = pre ++ [ev].
Proof.
  intros E. pose proof (build_component_plays self c bt w) as Hp.
  unfold plays in Hp. rewrite E in Hp.
  destruct Hp as (pre & ev & post & Hs & Hf & L).
  exists pre, ev, post. repeat split; auto.
  - intros ->. apply (f_equal last) in Hs.
    rewrite last_snoc in Hs. unfold script in Hs.
    rewrite !app_assoc, last_snoc in Hs. injection Hs as <-. exact Hf.
  - now apply new_events_app.
Qed.

(** *** The whole run *)

Lemma run_setup_events self bt w0 w :
  run_setup host self w = (Ok bt, w0) ->
  bt = scratch host self
  /\ log w0 = log w ++ [ESpawn probe_argv None; EMkdir (scratch host self)].
Proof.
  unfold run_setup, bind, except_OSError, check_output, mkdir_p, ret, scratch.
  destruct (spawn host w _ None) as [k|r out f']; [discriminate|].
  case_bool_decide; [|discriminate]. simpl.
  destruct (path_mkdir _ _ _ _ _); [discriminate|].
  intros [= <- <-]. simpl. now rewrite <- app_assoc.
Qed.

Lemma for_each_trace self bt cs w w' :
  for_each cs (fun c => build_component host self c bt) w = (Ok tt, w') ->
  log w'
  = log w ++ concat (zip_with (script host self bt) cs
                              (presence host self bt cs w)).
Proof.
  revert w. induction cs as [|c cs IH]; intros w E; simpl in *.
  - inversion E; subst. now rewrite app_nil_r.
  - apply bind_Ok_inv in E as ([] & w1 & E1 & E2).
    pose proof (build_component_plays self c bt w) as Hp.
    unfold plays in Hp. rewrite E1 in Hp.
    rewrite E1. simpl. rewrite (IH _ E2), Hp, <- app_assoc. reflexivity.
Qed.

(** A run that returns has logged, in this order: the version probe; the
    making of the scratch directory; then, component after component in
    registry order, the whole script of the component.  So every step of a
    component, its install call included, comes before the first step of the
    next one. *)
Theorem run_success_trace self w w' :
  run host self w = (Ok tt, w') ->
  new_events w w'
  = ESpawn probe_argv None
    :: EMkdir (scratch host self)
    :: concat (zip_with (script host self (scratch host self))
                 (COMPONENTS self)
                 (presence host self (scratch host self) (COMPONENTS self)
                    (snd (run_setup host self w)))).
Proof.
  intros E. unfold run in E.
  apply bind_Ok_inv in E as (bt & w0 & Hsetup & Hloop).
  destruct (run_setup_events self bt w0 w Hsetup) as [-> L0].
  apply new_events_app. rewrite Hsetup. simpl.
  rewrite (for_each_trace _ _ _ _ _ Hloop), L0, <- app_assoc. reflexivity.
Qed.

(** *** A file in the way *)

Lemma path_mkdir_file fuel parents exist_ok p f :
  stat f p = Some File ->
  path_mkdir fuel parents exist_ok p f = inl FileExistsError.
Proof.
  intros Hs. assert (Hd : is_dir f p = false).
  { unfold is_dir. apply bool_decide_eq_false. congruence. }
  destruct fuel; simpl; unfold os_mkdir; rewrite Hs, Hd;
    now rewrite orb_true_r.
Qed.

(** When the version probe has succeeded and a regular file is in the place
    of the scratch directory, [run] raises [FileExistsError]; it has done
    nothing but the probe and the attempt to make the directory: no
    component is announced, no process of a component is started. *)
Theorem run_scratch_blocked self w out f' :
  spawn host w probe_argv None = Exited 0 out f' ->
  stat f' (scratch host self) = Some File ->
  run host self w
  = (Raise (OSError FileExistsError),
     mkWorld f' (log w ++ [ESpawn probe_argv None;
                           EMkdir (scratch host self)])).
Proof.
  intros Ep Hs. rewrite (run_probe_ok host self w out f' Ep).
  fold (scratch host self). cbv zeta. unfold bind, mkdir_p. simpl.
  rewrite (path_mkdir_file _ _ _ _ _ Hs), <- app_assoc. reflexivity.
Qed.

(** When a regular file is in the place of the build directory of a
    component, [configure] raises [FileExistsError] and has only tried to
    make the directory: cmake is not started. *)
Theorem configure_blocked self c bt w :
  stat (fs w) (build_dir bt c) = Some File ->
  configure host self c bt w
  = (Raise (OSError FileExistsError),
     mkWorld (fs w) (log w ++ [EMkdir (build_dir bt c)])).
Proof.
  intros Hs. unfold configure, bind at 1, mkdir_p.
  now rewrite (path_mkdir_file _ _ _ _ _ Hs).
Qed.

(** *** What a run can raise, and what it can touch *)

Lemma build_component_raises_in self c :
  c ∈ COMPONENTS self ->
  raises (run_error host self)
    (build_component host self c (scratch host self)).
Proof.
  intros Hc w e w' E.
  pose proof (build_component_raises host self c _ w e w' E) as Hs.
  destruct e as [msg|k|r cmd out]; simpl in Hs.
  - contradiction.
  - right; right; left. eauto.
  - right; right; right. destruct Hs as (Hr & -> & Hcmd & Hsp).
    exists c, r, cmd. simpl. repeat split; auto.
Qed.

(** Every exception that leaves [run] is one of four: the toolchain error;
    the [CalledProcessError] of the version probe, with a non-zero status and
    the captured output; an [OSError]; or the [CalledProcessError], without
    output, of one of the four calls of a component of the registry, with the
    non-zero status that call exited with. *)
Theorem run_error_taxonomy self w e w' :
  run host self w = (Raise e, w') -> run_error host self e.
Proof.
  intros E.
  destruct (spawn host w probe_argv None) as [k|r out f'] eqn:Ep.
  - rewrite (run_probe_missing host self w k Ep) in E.
    injection E as <- _. now left.
  - destruct (decide (r = 0)) as [->|Hr].
    + rewrite (run_probe_ok host self w out f' Ep) in E.
      revert E. fold (scratch host self). cbv zeta.
      match goal with |- ?m ?w0 = _ -> _ =>
        assert (Hm : raises (run_error host self) m); [|apply Hm] end.
      apply raises_bind.
      * apply raises_mkdir_p. intros k. right; right; left. eauto.
      * intros _. apply raises_for_each_in.
        intros c Hc. now apply build_component_raises_in.
    + rewrite (run_probe_nonzero host self w r out f' Ep Hr) in E.
      injection E as <- _. right; left. eauto.
Qed.

Lemma build_component_footprint self c :
  c ∈ COMPONENTS self ->
  emits (in_footprint host self)
    (build_component host self c (scratch host self)).
Proof.
  intros Hc. emits_steps; simpl; eauto.
Qed.

(** When the component at index [i] raises, after the set-up and after the
    components before it went through, the run has logged: the version
    probe; the making of the scratch directory; the whole scripts of the
    components before [i], in registry order; and the script of the
    component at [i] up to and including the step that failed. *)
Theorem run_failure_trace self w bt w0 i c wi e w' :
  run_setup host self w = (Ok bt, w0) ->
  COMPONENTS self !! i = Some c ->
  for_each (take i (COMPONENTS self))
           (fun c => build_component host self c bt) w0 = (Ok tt, wi) ->
  build_component host self c bt wi = (Raise e, w') ->
  exists pre ev post,
    script host self bt c (path_exists (fs wi) (source_dir bt c))
    = pre ++ ev :: post
    /\ fallible ev
    /\ new_events w w'
       = ESpawn probe_argv None
         :: EMkdir bt
         :: concat (zip_with (script host self bt)
                      (take i (COMPONENTS self))
                      (presence host self bt (take i (COMPONENTS self)) w0))
         ++ pre ++ [ev].
Proof.
  intros Hsetup Hc Hpre Hfail.
  destruct (run_setup_events self bt w0 w Hsetup) as [Hbt L0].
  pose proof (for_each_trace _ _ _ _ _ Hpre) as Li.
  pose proof (build_component_plays self c bt wi) as Hp.
  unfold plays in Hp. rewrite Hfail in Hp.
  destruct Hp as (pre & ev & post & Hs & Hf & L).
  exists pre, ev, post. split; [exact Hs|]. split; [exact Hf|].
  apply new_events_app. rewrite L, Li, L0, <- Hbt, <- !app_assoc.
  reflexivity.
Qed.
End Traces.


(** * The stages, call by call *)

Section Stages.
Context `{Flavour}.
Variable host : Host.

Lemma logged_logged w evs1 evs2 :
  logged (logged w evs1) evs2 = logged w (evs1 ++ evs2).
Proof. unfold logged. simpl. now rewrite app_assoc. Qed.

Lemma bind_print_logged {B} text (k : unit -> M B) w :
  bind (print text) k w = k tt (logged w [EPrint text]).
Proof. reflexivity. Qed.

(** A call that exits with a non-zero status makes [check_call] raise, with
    that status, the argument vector of the call and no output. *)
Lemma check_call_nonzero argv cwd w r out f' :
  spawn host w argv cwd = Exited r out f' -> r <> 0 ->
  check_call host argv cwd w
  = (Raise (CalledProcessError r argv None),
     mkWorld f' (log w ++ [ESpawn argv cwd])).
Proof.
  intros E Hr. unfold check_call. rewrite E.
  now rewrite (bool_decide_eq_false_2 _ Hr).
Qed.

(** [build_component] starts with its three header lines. *)
Lemma build_component_unfold self c bt w :
  build_component host self c bt w
  = (acquire host c bt ;;
     configure host self c bt ;;
     compile host self c bt ;;
     install host c bt ;;
     print (Text.nl +:+ name c +:+ " built and installed successfully!"
            +:+ Text.nl))
      (logged w [EPrint (Text.nl +:+ rule); header c;
                 EPrint (rule +:+ Text.nl)]).
Proof.
  unfold build_component. rewrite !bind_print_logged, !logged_logged.
  reflexivity.
Qed.

Lemma acquire_nonzero c bt w r out f' :
  path_exists (fs w) (source_dir bt c) = false ->
  spawn host (logged w [EPrint ("Cloning " +:+ repo c +:+ "...")])
        (clone_argv bt c) None = Exited r out f' ->
  r <> 0 ->
  acquire host c bt w
  = (Raise (CalledProcessError r (clone_argv bt c) None),
     mkWorld f' (log w ++ [EPrint ("Cloning " +:+ repo c +:+ "...");
                           ESpawn (clone_argv bt c) None])).
Proof.
  intros Habs Es Hr. unfold acquire, bind at 1, exists_. rewrite Habs. simpl.
  rewrite bind_print_logged, (check_call_nonzero _ _ _ _ _ _ Es Hr).
  simpl. now rewrite <- app_assoc.
Qed.

Lemma configure_nonzero self c bt w w1 r out f' :
  mkdir_p (build_dir bt c) w = (Ok tt, w1) ->
  spawn host
    (logged w1 [EPrint "Configuring with CMake...";
                EPrint ("Command: "
                        +:+ Text.join " " (configure_argv host self bt c))])
    (configure_argv host self bt c) (Some (build_dir bt c))
  = Exited r out f' ->
  r <> 0 ->
  configure host self c bt w
  = (Raise (CalledProcessError r (configure_argv host self bt c) None),
     mkWorld f'
       (log w1 ++ [EPrint "Configuring with CMake...";
                   EPrint ("Command: "
                           +:+ Text.join " " (configure_argv host self bt c));
                   ESpawn (configure_argv host self bt c)
                          (Some (build_dir bt c))])).
Proof.
  intros Em Es Hr. unfold configure.
  rewrite (bind_Ok _ _ _ _ _ Em), !bind_print_logged. cbv beta.
  rewrite logged_logged. cbn [app].
  rewrite (check_call_nonzero _ _ _ _ _ _ Es Hr).
  simpl. now rewrite <- app_assoc.
Qed.

Lemma compile_nonzero self c bt w r out f' :
  spawn host (logged w [EPrint ("Building " +:+ name c +:+ "...")])
        (build_args (parallel self) (cpu_count host))
        (Some (build_dir bt c)) = Exited r out f' ->
  r <> 0 ->
  compile host self c bt w
  = (Raise (CalledProcessError r
              (build_args (parallel self) (cpu_count host)) None),
     mkWorld f'
       (log w ++ [EPrint ("Building " +:+ name c +:+ "...");
                  ESpawn (build_args (parallel self) (cpu_count host))
                         (Some (build_dir bt c))])).
Proof.
  intros Es Hr. unfold compile.
  rewrite bind_print_logged, (check_call_nonzero _ _ _ _ _ _ Es Hr).
  simpl. now rewrite <- app_assoc.
Qed.

Lemma install_nonzero c bt w r out f' :
  spawn host (logged w [EPrint ("Installing " +:+ name c +:+ "...")])
        install_args (Some (build_dir bt c)) = Exited r out f' ->
  r <> 0 ->
  install host c bt w
  = (Raise (CalledProcessError r install_args None),
     mkWorld f'
       (log w ++ [EPrint ("Installing " +:+ name c +:+ "...");
                  ESpawn install_args (Some (build_dir bt c))])).
Proof.
  intros Es Hr. unfold install.
  rewrite bind_print_logged, (check_call_nonzero _ _ _ _ _ _ Es Hr).
  simpl. now rewrite <- app_assoc.
Qed.

(** C6, as the script has it.  Whichever of the four calls of a component
    exits with a non-zero status, in the very world in which the script
    starts it, [build_component] raises the [CalledProcessError] of that
    call: it carries that status and the argument vector of that call, and
    its output is [None]; nothing is caught on the way.  The four parts are
    the clone (when the source directory is not there), the configure call
    (once [acquire] has returned and the build directory is made), the build
    call (once [configure] has returned) and the install call (once [compile]
    has returned).  Conversely, an exception that leaves [build_component]
    is an [OSError] or such a [CalledProcessError]; it has no field for the
    name of the component. *)
Theorem stage_failure_error self c bt w :
  let w0 := logged w [EPrint (Text.nl +:+ rule); header c;
                      EPrint (rule +:+ Text.nl)] in
  (forall r out f',
      path_exists (fs w) (source_dir bt c) = false ->
      spawn host (logged w0 [EPrint ("Cloning " +:+ repo c +:+ "...")])
            (clone_argv bt c) None = Exited r out f' ->
      r <> 0 ->
      build_component host self c bt w
      = (Raise (CalledProcessError r (clone_argv bt c) None),
         mkWorld f' (log w0 ++ [EPrint ("Cloning " +:+ repo c +:+ "...");
                                ESpawn (clone_argv bt c) None])))
  /\ (forall wa w1 r out f',
        acquire host c bt w0 = (Ok tt, wa) ->
        mkdir_p (build_dir bt c) wa = (Ok tt, w1) ->
        spawn host
          (logged w1
             [EPrint "Configuring with CMake...";
              EPrint ("Command: "
                      +:+ Text.join " " (configure_argv host self bt c))])
          (configure_argv host self bt c) (Some (build_dir bt c))
        = Exited r out f' ->
        r <> 0 ->
        build_component host self c bt w
        = (Raise (CalledProcessError r (configure_argv host self bt c) None),
           mkWorld f'
             (log w1
              ++ [EPrint "Configuring with CMake...";
                  EPrint ("Command: "
                          +:+ Text.join " " (configure_argv host self bt c));
                  ESpawn (configure_argv host self bt c)
                         (Some (build_dir bt c))])))
  /\ (forall wa wc r out f',
        acquire host c bt w0 = (Ok tt, wa) ->
        configure host self c bt wa = (Ok tt, wc) ->
        spawn host (logged wc [EPrint ("Building " +:+ name c +:+ "...")])
              (build_args (parallel self) (cpu_count host))
              (Some (build_dir bt c)) = Exited r out f' ->
        r <> 0 ->
        build_component host self c bt w
        = (Raise (CalledProcessError r
                    (build_args (parallel self) (cpu_count host)) None),
           mkWorld f'
             (log wc
              ++ [EPrint ("Building " +:+ name c +:+ "...");
                  ESpawn (build_args (parallel self) (cpu_count host))
                         (Some (build_dir bt c))])))
  /\ (forall wa wc wb r out f',
        acquire host c bt w0 = (Ok tt, wa) ->
        configure host self c bt wa = (Ok tt, wc) ->
        compile host self c bt wc = (Ok tt, wb) ->
        spawn host (logged wb [EPrint ("Installing " +:+ name c +:+ "...")])
              install_args (Some (build_dir bt c)) = Exited r out f' ->
        r <> 0 ->
        build_component host self c bt w
        = (Raise (CalledProcessError r install_args None),
           mkWorld f'
             (log wb
              ++ [EPrint ("Installing " +:+ name c +:+ "...");
                  ESpawn install_args (Some (build_dir bt c))])))
  /\ (forall e w',
        build_component host self c bt w = (Raise e, w') ->
        stage_error host self c bt e).
Proof.
  intros w0. repeat split.
  - intros r out f' Habs Es Hr. rewrite build_component_unfold. fold w0.
    apply bind_Raise. eapply acquire_nonzero; eauto.
  - intros wa w1 r out f' Ea Em Es Hr.
    rewrite build_component_unfold. fold w0.
    rewrite (bind_Ok _ _ _ _ _ Ea). apply bind_Raise.
    eapply configure_nonzero; eauto.
  - intros wa wc r out f' Ea Ec Es Hr.
    rewrite build_component_unfold. fold w0.
    rewrite (bind_Ok _ _ _ _ _ Ea), (bind_Ok _ _ _ _ _ Ec).
    apply bind_Raise. eapply compile_nonzero; eauto.
  - intros wa wc wb r out f' Ea Ec Eb Es Hr.
    rewrite build_component_unfold. fold w0.
    rewrite (bind_Ok _ _ _ _ _ Ea), (bind_Ok _ _ _ _ _ Ec),
      (bind_Ok _ _ _ _ _ Eb).
    apply bind_Raise. eapply install_nonzero; eauto.
  - intros e w' E. exact (build_component_raises host self c bt w e w' E).
Qed.

(** *** The install prefix, call by call *)

Lemma configure_argv_head self bt c :
  exists rest,
    configure_argv host self bt c
    = "cmake" :: Pathlib.str (source_dir bt c)
      :: ("-DCMAKE_INSTALL_PREFIX=" +:+ Pathlib.str (install_prefix host))
      :: rest.
Proof. eexists. reflexivity. Qed.

Lemma configure_event_in_script self bt c present :
  ESpawn (configure_argv host self bt c) (Some (build_dir bt c))
  ∈ script host self bt c present.
Proof.
  unfold script, configure_script.
  rewrite !elem_of_app. right; right; left.
  do 3 apply list_elem_of_further. apply list_elem_of_here.
Qed.

(** A loop that returned has logged the configure call of each of its
    components. *)
Lemma for_each_configure_logged self bt cs w w' :
  for_each cs (fun c => build_component host self c bt) w = (Ok tt, w') ->
  exists evs,
    log w' = log w ++ evs
    /\ forall c, c ∈ cs ->
         ESpawn (configure_argv host self bt c) (Some (build_dir bt c)) ∈ evs.
Proof.
  intros E. exists (concat (zip_with (script host self bt) cs
                              (presence host self bt cs w))).
  split; [now apply for_each_trace|]. clear E w'.
  revert w. induction cs as [|c cs IH]; intros w c' Hc; [inversion Hc|].
  cbn [presence zip_with concat]. apply elem_of_app.
  apply elem_of_cons in Hc as [->|Hc].
  - left. apply configure_event_in_script.
  - right. now apply IH.
Qed.

(** What a process with a working directory can be in a run: the build call,
    the install call, or the configure call of a component of the registry,
    in its build directory, with the shared install prefix as its first
    option. *)
Lemma build_component_cmake_calls self c :
  c ∈ COMPONENTS self ->
  emits (fun e => forall argv d, e = ESpawn argv (Some d) ->
           argv = build_args (parallel self) (cpu_count host)
           \/ argv = install_args
           \/ exists c rest,
                c ∈ COMPONENTS self
                /\ d = build_dir (scratch host self) c
                /\ argv
                   = "cmake"
                     :: Pathlib.str (source_dir (scratch host self) c)
                     :: ("-DCMAKE_INSTALL_PREFIX="
                         +:+ Pathlib.str (install_prefix host))
                     :: rest)
    (build_component host self c (scratch host self)).
Proof.
  intros Hc. emits_steps; intros argv d E; try discriminate;
    injection E as <- <-.
  - right; right. destruct (configure_argv_head self (scratch host self) c)
      as (rest & Hrest).
    exists c, rest. auto.
  - now left.
  - right; now left.
Qed.

(** C8. One install prefix for the run.  The prefix is the absolute
    [sys.prefix] of the host, whatever the component.  Once the build
    directory is there, the one process that [configure] starts is cmake on
    the source directory with that prefix as its first option; a run that
    returned has logged that call for every component of the registry; and in
    any run, every process with a working directory is that call for a
    component of the registry, the build call or the install call.  The
    install call passes no prefix of its own: it runs in the build directory
    that the configure call filled. *)
Theorem shared_install_prefix self w :
  (forall c bt w1 w2,
      mkdir_p (build_dir bt c) w1 = (Ok tt, w2) ->
      exists rest,
        new_events w1 (snd (configure host self c bt w1))
        = [EMkdir (build_dir bt c);
           EPrint "Configuring with CMake...";
           EPrint ("Command: "
                   +:+ Text.join " " (configure_argv host self bt c));
           ESpawn ("cmake"
                   :: Pathlib.str (source_dir bt c)
                   :: ("-DCMAKE_INSTALL_PREFIX="
                       +:+ Pathlib.str (install_prefix host))
                   :: rest)
                  (Some (build_dir bt c))])
  /\ (forall w',
        run host self w = (Ok tt, w') ->
        forall c, c ∈ COMPONENTS self ->
          exists rest,
            ESpawn ("cmake"
                    :: Pathlib.str (source_dir (scratch host self) c)
                    :: ("-DCMAKE_INSTALL_PREFIX="
                        +:+ Pathlib.str (install_prefix host))
                    :: rest)
                   (Some (build_dir (scratch host self) c))
            ∈ new_events w w')
  /\ Forall (fun e => forall argv d, e = ESpawn argv (Some d) ->
               argv = build_args (parallel self) (cpu_count host)
               \/ argv = install_args
               \/ exists c rest,
                    c ∈ COMPONENTS self
                    /\ d = build_dir (scratch host self) c
                    /\ argv
                       = "cmake"
                         :: Pathlib.str (source_dir (scratch host self) c)
                         :: ("-DCMAKE_INSTALL_PREFIX="
                             +:+ Pathlib.str (install_prefix host))
                         :: rest)
            (new_events w (snd (run host self w)))
  /\ (forall c bt w1,
        new_events w1 (snd (install host c bt w1))
        = [EPrint ("Installing " +:+ name c +:+ "...");
           ESpawn ["cmake"; "--install"; "."] (Some (build_dir bt c))])
  /\ Forall (fun e => forall p, configure_prefix_of e = Some p ->
                                p = Pathlib.str (install_prefix host))
            (new_events w (snd (run host self w))).
Proof.
  split; [|split; [|split; [|split]]].
  - intros c bt w1 w2 Em.
    destruct (configure_argv_head self bt c) as (rest & Hrest).
    exists rest. rewrite <- Hrest.
    apply new_events_app. eapply configure_events; eauto.
  - intros w' E c Hc. unfold run in E.
    apply bind_Ok_inv in E as (bt & w0 & Hsetup & Hloop).
    destruct (run_setup_events host self bt w0 w Hsetup) as [-> L0].
    destruct (for_each_configure_logged _ _ _ _ _ Hloop) as (evs & L & Hin).
    destruct (configure_argv_head self (scratch host self) c)
      as (rest & Hrest).
    exists rest. rewrite <- Hrest.
    rewrite (new_events_app w w'
               ([ESpawn probe_argv None; EMkdir (scratch host self)] ++ evs))
      by (rewrite L, L0, <- app_assoc; reflexivity).
    apply elem_of_app. right. now apply Hin.
  - destruct (spawn host w probe_argv None) as [k|r out f'] eqn:Ep.
    + rewrite (run_probe_missing host self w k Ep).
      erewrite new_events_app by reflexivity.
      constructor; [intros ? ? [=] | constructor].
    + destruct (decide (r = 0)) as [->|Hr].
      * rewrite (run_probe_ok host self w out f' Ep).
        fold (scratch host self). cbv zeta.
        match goal with |- Forall ?P (new_events _ (snd (?m ?w0))) =>
          assert (Hm : emits P m); [|destruct (Hm w0) as (evs & L & F)] end.
        { apply emits_bind.
          - apply emits_mkdir_p. intros ? ? [=].
          - intros _. apply emits_for_each_in.
            intros c Hc. now apply build_component_cmake_calls. }
        erewrite new_events_app
          by (rewrite L; simpl; rewrite <- app_assoc; reflexivity).
        constructor; [intros ? ? [=] | exact F].
      * rewrite (run_probe_nonzero host self w r out f' Ep Hr).
        erewrite new_events_app by reflexivity.
        constructor; [intros ? ? [=] | constructor].
  - intros c bt w1. apply new_events_app, install_events.
  - destruct (run_configure_prefix host self w) as (evs & L & F).
    now rewrite (new_events_app _ _ _ L).
Qed.

(** *** The two paths, step by step *)

(** A [build_component] that returned has got through [acquire] and has made
    the build directory in the world that [acquire] left. *)
Lemma build_component_Ok_mkdir self c bt w w' :
  build_component host self c bt w = (Ok tt, w') ->
  exists wa w1,
    acquire host c bt
      (logged w [EPrint (Text.nl +:+ rule); header c;
                 EPrint (rule +:+ Text.nl)]) = (Ok tt, wa)
    /\ mkdir_p (build_dir bt c) wa = (Ok tt, w1)
    /\ is_dir (fs w1) (build_dir bt c) = true.
Proof.
  rewrite build_component_unfold. intros E.
  apply bind_Ok_inv in E as ([] & wa & Ea & E).
  apply bind_Ok_inv in E as ([] & wc & Ec & _).
  unfold configure in Ec.
  apply bind_Ok_inv in Ec as ([] & w1 & Em & _).
  exists wa, w1. split; [exact Ea|]. split; [exact Em|].
  eapply mkdir_p_is_dir; eauto.
Qed.

(** Where the build directory is there, [configure] goes on to its cmake
    call; the filesystem is as it was. *)
Lemma configure_existing self c bt w :
  is_dir (fs w) (build_dir bt c) = true ->
  configure host self c bt w
  = check_call host (configure_argv host self bt c) (Some (build_dir bt c))
      (logged w [EMkdir (build_dir bt c);
                 EPrint "Configuring with CMake...";
                 EPrint ("Command: "
                         +:+ Text.join " " (configure_argv host self bt c))]).
Proof.
  intros Hd. unfold configure.
  rewrite (bind_Ok _ _ _ _ _ (mkdir_p_existing _ _ Hd)), !bind_print_logged.
  cbv beta.
  change (mkWorld (fs w) (log w ++ [EMkdir (build_dir bt c)]))
    with (logged w [EMkdir (build_dir bt c)]).
  rewrite !logged_logged. reflexivity.
Qed.

(** C9. The derived paths.  The source directory of a component is the work
    root joined with its name, the build directory is the work root joined
    with the name followed by [-build]; both depend on nothing else.  A
    [build_component] that returned has logged exactly this: its header; the
    line of a source directory that is there, or the line and the clone into
    the source directory when it is not, as decided by the existence of the
    source directory on entry; the build directory made; the configure call
    on the source directory, then the build call and the install call, all
    three in the build directory.  It has made the build directory right
    after [acquire], and the directory is there after that.  A
    [build_component] that raised has logged the beginning of the same
    sequence, up to and including the step that failed.  Whatever happens,
    every directory made and every working directory is the build directory
    and every process without working directory is the clone into the source
    directory.  Making the build directory is idempotent: when it is there
    the call returns and leaves the filesystem as it was, and after a call
    that returned it is there, so that a second call returns too and changes
    nothing; and so in [build_component]: when the build directory is there
    once [acquire] has returned, the script goes on to the configure call,
    then to the build and to the install, on the filesystem that [acquire]
    left. *)
Theorem derived_paths self c bt w :
  Forall (uses_paths (repo c) (Pathlib.str (joinpath bt (name c)))
                     (joinpath bt (name c +:+ "-build")))
         (new_events w (snd (build_component host self c bt w)))
  /\ nth 1 (configure_argv host self bt c) ""
     = Pathlib.str (joinpath bt (name c))
  /\ (is_dir (fs w) (joinpath bt (name c +:+ "-build")) = true ->
        mkdir_p (joinpath bt (name c +:+ "-build")) w
        = (Ok tt,
           mkWorld (fs w)
             (log w ++ [EMkdir (joinpath bt (name c +:+ "-build"))])))
  /\ (forall w1,
        mkdir_p (joinpath bt (name c +:+ "-build")) w = (Ok tt, w1) ->
        is_dir (fs w1) (joinpath bt (name c +:+ "-build")) = true
        /\ mkdir_p (joinpath bt (name c +:+ "-build")) w1
           = (Ok tt,
              mkWorld (fs w1)
                (log w1 ++ [EMkdir (joinpath bt (name c +:+ "-build"))])))
  /\ (source_dir bt c = joinpath bt (name c)
      /\ build_dir bt c = joinpath bt (name c +:+ "-build"))
  /\ (forall w',
        build_component host self c bt w = (Ok tt, w') ->
        new_events w w'
        = [EPrint (Text.nl +:+ rule);
           EPrint ("Building component: " +:+ name c);
           EPrint (rule +:+ Text.nl)]
          ++ (if path_exists (fs w) (joinpath bt (name c))
              then [EPrint ("Using existing source at "
                            +:+ Pathlib.str (joinpath bt (name c)))]
              else [EPrint ("Cloning " +:+ repo c +:+ "...");
                    ESpawn ["git"; "clone"; repo c;
                            Pathlib.str (joinpath bt (name c))] None])
          ++ [EMkdir (joinpath bt (name c +:+ "-build"));
              EPrint "Configuring with CMake...";
              EPrint ("Command: "
                      +:+ Text.join " " (configure_argv host self bt c));
              ESpawn (configure_argv host self bt c)
                     (Some (joinpath bt (name c +:+ "-build")));
              EPrint ("Building " +:+ name c +:+ "...");
              ESpawn (build_args (parallel self) (cpu_count host))
                     (Some (joinpath bt (name c +:+ "-build")));
              EPrint ("Installing " +:+ name c +:+ "...");
              ESpawn install_args (Some (joinpath bt (name c +:+ "-build")));
              EPrint (Text.nl +:+ name c
                      +:+ " built and installed successfully!" +:+ Text.nl)])
  /\ (forall w',
        build_component host self c bt w = (Ok tt, w') ->
        exists wa w1,
          acquire host c bt
            (logged w [EPrint (Text.nl +:+ rule); header c;
                       EPrint (rule +:+ Text.nl)]) = (Ok tt, wa)
          /\ mkdir_p (joinpath bt (name c +:+ "-build")) wa = (Ok tt, w1)
          /\ is_dir (fs w1) (joinpath bt (name c +:+ "-build")) = true)
  /\ (forall e w',
        build_component host self c bt w = (Raise e, w') ->
        exists pre ev post,
          script host self bt c (path_exists (fs w) (joinpath bt (name c)))
          = pre ++ ev :: post
          /\ fallible ev
          /\ new_events w w' = pre ++ [ev])
  /\ (forall wa,
        acquire host c bt
          (logged w [EPrint (Text.nl +:+ rule); header c;
                     EPrint (rule +:+ Text.nl)]) = (Ok tt, wa) ->
        is_dir (fs wa) (joinpath bt (name c +:+ "-build")) = true ->
        build_component host self c bt w
        = (check_call host (configure_argv host self bt c)
             (Some (joinpath bt (name c +:+ "-build"))) ;;
           compile host self c bt ;;
           install host c bt ;;
           print (Text.nl +:+ name c +:+ " built and installed successfully!"
                  +:+ Text.nl))
            (logged wa
               [EMkdir (joinpath bt (name c +:+ "-build"));
                EPrint "Configuring with CMake...";
                EPrint ("Command: "
                        +:+ Text.join " " (configure_argv host self bt c))])).
Proof.
  split; [|split; [|split; [|split; [|split; [|split; [|split; [|split]]]]]]].
  - destruct (build_component_paths host self c bt w) as (evs & L & F).
    now rewrite (new_events_app _ _ _ L).
  - reflexivity.
  - apply mkdir_p_existing.
  - intros w1 E. pose proof (mkdir_p_is_dir _ _ _ E) as Hd.
    split; [exact Hd | now apply mkdir_p_existing].
  - split; reflexivity.
  - intros w' E. pose proof (build_component_plays host self c bt w) as Hp.
    unfold plays in Hp. rewrite E in Hp. now apply new_events_app.
  - intros w' E. exact (build_component_Ok_mkdir self c bt w w' E).
  - intros e w' E. pose proof (build_component_plays host self c bt w) as Hp.
    unfold plays in Hp. rewrite E in Hp.
    destruct Hp as (pre & ev & post & Hs & Hf & L).
    exists pre, ev, post. split; [exact Hs|]. split; [exact Hf|].
    now apply new_events_app.
  - intros wa Ea Hd.
    rewrite build_component_unfold, (bind_Ok _ _ _ _ _ Ea).
    unfold bind at 1. rewrite (configure_existing self c bt wa Hd).
    reflexivity.
Qed.
End Stages.

(** ** The stages on the demonstration hosts *)

(** The build of [runtime] on [host_build_fails]: [acquire] and [configure]
    return, the build call exits with 2, and that is the exception raised. *)
Lemma stage_failure_error_witness :
  (@acquire Demo.flavour Demo.host_build_fails Demo.c_runtime Demo.bt
     Demo.w_header = (Ok tt, Demo.w_acquired)
   /\ @configure Demo.flavour Demo.host_build_fails Demo.self Demo.c_runtime
        Demo.bt Demo.w_acquired = (Ok tt, Demo.w_configured)
   /\ spawn Demo.host_build_fails
        (logged Demo.w_configured [EPrint "Building runtime..."])
        ["cmake"; "--build"; "."; "--config"; "Release"; "--parallel"; "8"]
        (Some (@build_dir Demo.flavour Demo.bt Demo.c_runtime))
      = Exited 2 "error: ld failed" (fs Demo.w_configured)
   /\ 2 <> 0)
  /\ @build_component Demo.flavour Demo.host_build_fails Demo.self
       Demo.c_runtime Demo.bt Demo.w_init
     = (Raise (CalledProcessError 2
                 ["cmake"; "--build"; "."; "--config"; "Release";
                  "--parallel"; "8"] None),
        mkWorld (fs Demo.w_configured)
          (log Demo.w_configured
           ++ [EPrint "Building runtime...";
               ESpawn ["cmake"; "--build"; "."; "--config"; "Release";
                       "--parallel"; "8"]
                      (Some (@build_dir Demo.flavour Demo.bt
                               Demo.c_runtime))])).
Proof.
  assert (Ha : @acquire Demo.flavour Demo.host_build_fails Demo.c_runtime
                 Demo.bt Demo.w_header = (Ok tt, Demo.w_acquired))
    by (vm_compute; reflexivity).
  assert (Hc : @configure Demo.flavour Demo.host_build_fails Demo.self
                 Demo.c_runtime Demo.bt Demo.w_acquired
               = (Ok tt, Demo.w_configured))
    by (vm_compute; reflexivity).
  assert (Hs : spawn Demo.host_build_fails
                 (logged Demo.w_configured [EPrint "Building runtime..."])
                 ["cmake"; "--build"; "."; "--config"; "Release";
                  "--parallel"; "8"]
                 (Some (@build_dir Demo.flavour Demo.bt Demo.c_runtime))
               = Exited 2 "error: ld failed" (fs Demo.w_configured))
    by reflexivity.
  assert (Hr : 2 <> 0) by discriminate.
  split; [repeat split; assumption|].
  exact (proj1 (proj2 (proj2
           (@stage_failure_error Demo.flavour Demo.host_build_fails
              Demo.self Demo.c_runtime Demo.bt Demo.w_init)))
           Demo.w_acquired Demo.w_configured 2 "error: ld failed"
           (fs Demo.w_configured) Ha Hc Hs Hr).
Defined.

(** The run on the demonstration host returned, and [runtime] is in its
    registry: its configure call, with the prefix [/usr], is in the log. *)
Lemma shared_install_prefix_witness :
  (@run Demo.flavour Demo.host_ok Demo.self Demo.w_init = (Ok tt, Demo.w_ran)
   /\ Demo.c_runtime ∈ COMPONENTS Demo.self)
  /\ exists rest,
       ESpawn ("cmake" :: "/home/u/proj/build/temp/runtime"
               :: "-DCMAKE_INSTALL_PREFIX=/usr" :: rest)
              (Some (@build_dir Demo.flavour Demo.bt Demo.c_runtime))
       ∈ new_events Demo.w_init Demo.w_ran.
Proof.
  assert (Hrun : @run Demo.flavour Demo.host_ok Demo.self Demo.w_init
                 = (Ok tt, Demo.w_ran)) by (vm_compute; reflexivity).
  assert (Hc : Demo.c_runtime ∈ COMPONENTS Demo.self)
    by (apply list_elem_of_further, list_elem_of_here).
  split; [split; assumption|].
  exact (proj1 (proj2 (@shared_install_prefix Demo.flavour Demo.host_ok
                         Demo.self Demo.w_init))
           Demo.w_ran Hrun Demo.c_runtime Hc).
Defined.

(** The build of [runtime] on the demonstration host returned: it has made
    [/home/u/proj/build/temp/runtime-build] right after [acquire]. *)
Lemma derived_paths_witness :
  @build_component Demo.flavour Demo.host_ok Demo.self Demo.c_runtime
    Demo.bt Demo.w_init = (Ok tt, Demo.w_built)
  /\ exists wa w1,
       @acquire Demo.flavour Demo.host_ok Demo.c_runtime Demo.bt
         Demo.w_header = (Ok tt, wa)
       /\ @mkdir_p Demo.flavour
            (mkPath "/" ["home"; "u"; "proj"; "build"; "temp";
                         "runtime-build"]) wa = (Ok tt, w1)
       /\ @is_dir Demo.flavour (fs w1)
            (mkPath "/" ["home"; "u"; "proj"; "build"; "temp";
                         "runtime-build"]) = true.
Proof.
  assert (Hrun : @build_component Demo.flavour Demo.host_ok Demo.self
                   Demo.c_runtime Demo.bt Demo.w_init
                 = (Ok tt, Demo.w_built)) by (vm_compute; reflexivity).
  split; [exact Hrun|].
  exact (proj1 (proj2 (proj2 (proj2 (proj2 (proj2 (proj2
           (@derived_paths Demo.flavour Demo.host_ok Demo.self
              Demo.c_runtime Demo.bt Demo.w_init)))))))
           Demo.w_built Hrun).
Defined.

(** * The footprint of a run *)

Section Footprint.
Context `{Flavour}.
Variable host : Host.
Variable self : CMakeBuild.

Lemma ancestors_self p : p ∈ ancestors p.
Proof.
  unfold ancestors. apply list_elem_of_fmap.
  exists (length (parts p)). split.
  - rewrite take_ge by lia. now destruct p.
  - apply elem_of_seq. lia.
Qed.

Lemma ancestors_parent q p :
  q ∈ ancestors p -> Pathlib.parent q ∈ ancestors p.
Proof.
  unfold ancestors. rewrite !list_elem_of_fmap.
  intros (n & -> & Hn). apply elem_of_seq in Hn.
  unfold Pathlib.parent. cbn [anchor parts].
  destruct n as [|m].
  - exists 0%nat. split; [now rewrite take_0|]. apply elem_of_seq. lia.
  - exists m. split.
    + f_equal. apply removelast_firstn. lia.
    + apply elem_of_seq. lia.
Qed.

Lemma watched_ancestor p q :
  p ∈ mkdir_targets host self -> q ∈ ancestors p ->
  Pathlib.str q ∈ watched host self.
Proof.
  intros Hp Hq. unfold watched. apply list_elem_of_fmap.
  exists q. split; [reflexivity|]. apply list_elem_of_bind. eauto.
Qed.

Lemma footprint_target p :
  in_footprint host self (EMkdir p) -> p ∈ mkdir_targets host self.
Proof.
  unfold mkdir_targets. intros [->|(c & Hc & ->)].
  - left.
  - right. apply list_elem_of_fmap. eauto.
Qed.

Lemma os_mkdir_step p0 p f f' :
  p0 ∈ mkdir_targets host self -> p ∈ ancestors p0 ->
  os_mkdir f p = inr f' -> fs_step host self f f'.
Proof.
  intros H0 Hp. unfold os_mkdir. destruct (stat f p) eqn:E1; [discriminate|].
  destruct (stat f (Pathlib.parent p)) as [[|]|]; try discriminate.
  intros [= <-]. apply step_mkdir.
  - eapply watched_ancestor; eauto.
  - unfold stat in E1. now destruct (parts p).
Qed.

Lemma path_mkdir_steps p0 fuel parents exist_ok p f f' :
  p0 ∈ mkdir_targets host self -> p ∈ ancestors p0 ->
  path_mkdir fuel parents exist_ok p f = inr f' ->
  rtc (fs_step host self) f f'.
Proof.
  intros H0. revert parents exist_ok p f f'.
  induction fuel as [|k IH]; intros parents exist_ok p f f' Hp; simpl;
    destruct (os_mkdir f p) as [e|f1] eqn:Eos;
    try (intros [= <-]; apply rtc_once; eapply os_mkdir_step; eauto; fail).
  - destruct e;
      repeat match goal with
             | |- context [if ?b then _ else _] => destruct b
             end; try discriminate; now intros [= <-].
  - destruct e;
      try (destruct (negb exist_ok || negb (is_dir f p));
           [discriminate | now intros [= <-]]).
    destruct (negb parents || bool_decide (Pathlib.parent p = p));
      [discriminate|].
    destruct (path_mkdir k true true (Pathlib.parent p) f) as [|f2] eqn:E2;
      [discriminate|].
    intros E3. etrans.
    + eapply IH; [|exact E2]. now apply ancestors_parent.
    + eapply IH; [|exact E3]. exact Hp.
Qed.

Lemma moves_ret {A} (a : A) : moves host self (ret a).
Proof. intros w. reflexivity. Qed.

Lemma moves_print text : moves host self (print text).
Proof. intros w. reflexivity. Qed.

Lemma moves_exists p : moves host self (exists_ p).
Proof. intros w. reflexivity. Qed.

Lemma moves_bind {A B} (m : M A) (k : A -> M B) :
  moves host self m -> (forall a, moves host self (k a)) ->
  moves host self (bind m k).
Proof.
  intros Hm Hk w. unfold bind. specialize (Hm w).
  destruct (m w) as [[a|e] w1]; simpl in *; [|exact Hm].
  etrans; [exact Hm | apply Hk].
Qed.

Lemma moves_for_each_in {A} (l : list A) (body : A -> M unit) :
  (forall x, x ∈ l -> moves host self (body x)) ->
  moves host self (for_each l body).
Proof.
  induction l as [|x xs IH]; intros Hb; simpl.
  - apply moves_ret.
  - apply moves_bind.
    + apply Hb. left.
    + intros _. apply IH. intros y Hy. apply Hb. now right.
Qed.

Lemma moves_mkdir_p p :
  in_footprint host self (EMkdir p) -> moves host self (mkdir_p p).
Proof.
  intros Hp w. unfold mkdir_p.
  destruct (path_mkdir _ _ _ _ _) eqn:E; simpl; [reflexivity|].
  eapply path_mkdir_steps; [|apply ancestors_self|exact E].
  now apply footprint_target.
Qed.

Lemma moves_check_call argv cwd :
  in_footprint host self (ESpawn argv cwd) ->
  moves host self (check_call host argv cwd).
Proof.
  intros Hf w. unfold check_call.
  destruct (spawn host w argv cwd) eqn:E; [reflexivity|].
  case_bool_decide; simpl; apply rtc_once; eapply step_process; eauto.
Qed.

Lemma moves_build_component c :
  c ∈ COMPONENTS self ->
  moves host self (build_component host self c (scratch host self)).
Proof.
  intros Hc.
  unfold build_component, acquire, configure, compile, install.
  repeat first
    [ apply moves_bind; [|intros ?]
    | match goal with
      | |- moves _ _ (if ?b then _ else _) => destruct b
      end
    | apply moves_print
    | apply moves_mkdir_p
    | apply moves_check_call
    | apply moves_ret
    | apply moves_exists ]; simpl; eauto.
Qed.

(** Everything [run] does is in its footprint.  Its [mkdir] calls are for
    the scratch directory and for the build directories of the components of
    the registry; the processes it starts are the version probe and the
    clones of those components, without working directory, and cmake with
    the build directory of such a component as working directory.  On the
    filesystem, what a run does is a sequence of changes, each of which is
    the doing of one of those processes or a directory made, where there was
    nothing, at one of those [mkdir] paths or at one of its ancestors, which
    [mkdir(parents=True)] makes when they are missing.  The script itself
    writes no file, removes nothing and makes no other directory. *)
Theorem run_footprint w :
  Forall (in_footprint host self) (new_events w (snd (run host self w)))
  /\ rtc (fs_step host self) (fs w) (fs (snd (run host self w))).
Proof.
  split.
  - destruct (spawn host w probe_argv None) as [k|r out f'] eqn:Ep.
    + rewrite (run_probe_missing host self w k Ep).
      erewrite new_events_app by reflexivity.
      constructor; [simpl; now left | constructor].
    + destruct (decide (r = 0)) as [->|Hr].
      * rewrite (run_probe_ok host self w out f' Ep).
        fold (scratch host self). cbv zeta.
        match goal with |- context [snd (?m ?w0)] =>
          assert (Hm : emits (in_footprint host self) m);
            [|destruct (Hm w0) as (evs & L & F)] end.
        { apply emits_bind.
          + apply emits_mkdir_p. simpl. now left.
          + intros _. apply emits_for_each_in.
            intros c Hc. now apply build_component_footprint. }
        erewrite new_events_app
          by (rewrite L; simpl; rewrite <- app_assoc; reflexivity).
        constructor; [simpl; now left | exact F].
      * rewrite (run_probe_nonzero host self w r out f' Ep Hr).
        erewrite new_events_app by reflexivity.
        constructor; [simpl; now left | constructor].
  - assert (Hp : in_footprint host self (ESpawn probe_argv None))
      by (simpl; now left).
    destruct (spawn host w probe_argv None) as [k|r out f'] eqn:Ep.
    + rewrite (run_probe_missing host self w k Ep). reflexivity.
    + assert (Hs : fs_step host self (fs w) f')
        by (eapply step_process; eauto).
      destruct (decide (r = 0)) as [->|Hr].
      * rewrite (run_probe_ok host self w out f' Ep).
        fold (scratch host self). cbv zeta.
        eapply rtc_l; [exact Hs|].
        match goal with |- context [snd (?m ?w0)] =>
          assert (Hm : moves host self m); [|exact (Hm w0)] end.
        apply moves_bind.
        -- apply moves_mkdir_p. simpl. now left.
        -- intros _. apply moves_for_each_in.
           intros c Hc. now apply moves_build_component.
      * rewrite (run_probe_nonzero host self w r out f' Ep Hr).
        now apply rtc_once.
Qed.
End Footprint.

(** * What a run leaves on the filesystem *)

Section Files.
Context `{Flavour}.
Variable host : Host.
Hypothesis Hkeeps : host_keeps_files host.

Lemma keeps_ret {A} (a : A) : keeps (ret a).
Proof. intros w. reflexivity. Qed.

Lemma keeps_print text : keeps (print text).
Proof. intros w. reflexivity. Qed.

Lemma keeps_exists p : keeps (exists_ p).
Proof. intros w. reflexivity. Qed.

Lemma keeps_bind {A B} (m : M A) (k : A -> M B) :
  keeps m -> (forall a, keeps (k a)) -> keeps (bind m k).
Proof.
  intros Hm Hk w. unfold bind. specialize (Hm w).
  destruct (m w) as [[a|e] w1]; simpl in *; [|exact Hm].
  etrans; [exact Hm | apply Hk].
Qed.

Lemma keeps_for_each {A} (l : list A) (body : A -> M unit) :
  (forall x, keeps (body x)) -> keeps (for_each l body).
Proof.
  intros Hb. induction l as [|x xs IH]; simpl.
  - apply keeps_ret.
  - apply keeps_bind; auto.
Qed.

Lemma keeps_except {A} (m : M A) e : keeps m -> keeps (except_OSError m e).
Proof.
  intros Hm w. unfold except_OSError. specialize (Hm w).
  destruct (m w) as [[a|[]] w1]; exact Hm.
Qed.

Lemma os_mkdir_subseteq f p f' : os_mkdir f p = inr f' -> f ⊆ f'.
Proof.
  unfold os_mkdir. destruct (stat f p) eqn:E1; [discriminate|].
  destruct (stat f (Pathlib.parent p)) as [[|]|]; try discriminate.
  intros [= <-]. apply insert_subseteq.
  unfold stat in E1. now destruct (parts p).
Qed.

Lemma path_mkdir_subseteq fuel parents exist_ok p f f' :
  path_mkdir fuel parents exist_ok p f = inr f' -> f ⊆ f'.
Proof.
  revert parents exist_ok p f f'.
  induction fuel as [|k IH]; intros parents exist_ok p f f'; simpl;
    destruct (os_mkdir f p) as [e|f1] eqn:Eos;
    try (intros [= <-]; now apply os_mkdir_subseteq in Eos).
  - destruct e;
      repeat match goal with
             | |- context [if ?b then _ else _] => destruct b
             end; try discriminate; now intros [= <-].
  - destruct e;
      try (destruct (negb exist_ok || negb (is_dir f p));
           [discriminate | now intros [= <-]]).
    destruct (negb parents || bool_decide (Pathlib.parent p = p));
      [discriminate|].
    destruct (path_mkdir k true true (Pathlib.parent p) f) as [|f2] eqn:E2;
      [discriminate|].
    intros E3. etrans; [eapply IH, E2 | eapply IH, E3].
Qed.

Lemma keeps_mkdir_p p : keeps (mkdir_p p).
Proof.
  intros w. unfold mkdir_p.
  destruct (path_mkdir _ _ _ _ _) eqn:E; simpl; [reflexivity|].
  eapply path_mkdir_subseteq, E.
Qed.

Lemma keeps_check_call argv cwd : keeps (check_call host argv cwd).
Proof.
  intros w. unfold check_call.
  destruct (spawn host w argv cwd) eqn:E; [reflexivity|].
  case_bool_decide; simpl; eapply Hkeeps, E.
Qed.

Lemma keeps_check_output argv : keeps (check_output host argv).
Proof.
  intros w. unfold check_output.
  destruct (spawn host w argv None) eqn:E; [reflexivity|].
  case_bool_decide; simpl; eapply Hkeeps, E.
Qed.

Ltac keeps_steps :=
  unfold run, run_setup, build_component, acquire, configure, compile, install;
  repeat first
    [ apply keeps_bind; [|intros ?]
    | apply keeps_for_each; intros ?
    | apply keeps_except
    | match goal with
      | |- keeps (if ?b then _ else _) => destruct b
      end
    | apply keeps_print
    | apply keeps_mkdir_p
    | apply keeps_check_call
    | apply keeps_check_output
    | apply keeps_ret
    | apply keeps_exists ].

Lemma keeps_build_component self c bt : keeps (build_component host self c bt).
Proof. keeps_steps. Qed.

Lemma keeps_run self : keeps (run host self).
Proof. keeps_steps. Qed.

(** On a host whose tools remove nothing, [run] removes nothing: whether it
    returns or raises, everything that existed before the run exists after
    it, as the same kind of thing.  In particular a run that fails undoes
    nothing of what it or an earlier run made. *)
Theorem run_keeps_files self w : fs w ⊆ fs (snd (run host self w)).
Proof. apply keeps_run. Qed.
End Files.

Section Layout.
Context `{Flavour}.
Variable host : Host.
Hypothesis Hkeeps : host_keeps_files host.
Hypothesis Hclone : host_clone_creates host.

Lemma stat_mono f f' p n : f ⊆ f' -> stat f p = Some n -> stat f' p = Some n.
Proof.
  intros Hsub. unfold stat. destruct (parts p); [auto|].
  intros E. eapply lookup_weaken; eauto.
Qed.

Lemma is_dir_mono f f' p : f ⊆ f' -> is_dir f p = true -> is_dir f' p = true.
Proof.
  unfold is_dir. intros Hsub Hd%bool_decide_eq_true.
  apply bool_decide_eq_true. eapply stat_mono; eauto.
Qed.

Lemma path_exists_mono f f' p :
  f ⊆ f' -> path_exists f p = true -> path_exists f' p = true.
Proof.
  unfold path_exists. intros Hsub [n Hn]%bool_decide_eq_true.
  apply bool_decide_eq_true. exists n. eapply stat_mono; eauto.
Qed.

(** After an [acquire] that returned, the source directory is there. *)
Lemma acquire_Ok_exists c bt w w1 :
  acquire host c bt w = (Ok tt, w1) ->
  path_exists (fs w1) (source_dir bt c) = true.
Proof.
  destruct (path_exists (fs w) (source_dir bt c)) eqn:E.
  - rewrite (acquire_present host c bt w E). now intros [= <-].
  - unfold acquire, bind at 1, exists_. rewrite E. simpl.
    rewrite bind_print. unfold check_call, clone_argv.
    destruct (spawn host _ _ None) as [k|r out f'] eqn:Es; [discriminate|].
    case_bool_decide as Hr; [|discriminate]. subst r.
    intros [= <-]. simpl. apply Hclone in Es.
    unfold path_exists, stat. apply bool_decide_eq_true.
    destruct (parts (source_dir bt c)); [eauto | exact Es].
Qed.

Lemma after_acquire_keeps self c bt :
  keeps (configure host self c bt ;; compile host self c bt ;;
         install host c bt ;;
         print (Text.nl +:+ name c +:+ " built and installed successfully!"
                +:+ Text.nl)).
Proof.
  unfold configure, compile, install.
  repeat first [ apply keeps_bind; [|intros ?] | apply keeps_print
               | apply keeps_mkdir_p | apply keeps_check_call; assumption ].
Qed.

Lemma after_mkdir_keeps self c bt :
  keeps ((print "Configuring with CMake..." ;;
          print ("Command: " +:+ Text.join " " (configure_argv host self bt c)) ;;
          check_call host (configure_argv host self bt c)
            (Some (build_dir bt c))) ;;
         compile host self c bt ;;
         install host c bt ;;
         print (Text.nl +:+ name c +:+ " built and installed successfully!"
                +:+ Text.nl)).
Proof.
  unfold compile, install.
  repeat first [ apply keeps_bind; [|intros ?] | apply keeps_print
               | apply keeps_check_call; assumption ].
Qed.

Lemma bind_assoc {A B C} (m : M A) (k : A -> M B) (k' : B -> M C) w :
  bind (bind m k) k' w = bind m (fun a => bind (k a) k') w.
Proof. unfold bind. destruct (m w) as [[a|e] w1]; reflexivity. Qed.

(** After a [build_component] that returned, the two directories of the
    component are there. *)
Lemma build_component_layout self c bt w w' :
  build_component host self c bt w = (Ok tt, w') ->
  is_dir (fs w') (build_dir bt c) = true
  /\ path_exists (fs w') (source_dir bt c) = true.
Proof.
  unfold build_component. rewrite !bind_print. intros E.
  apply bind_Ok_inv in E as ([] & wa & Ea & E).
  apply acquire_Ok_exists in Ea. split.
  - unfold configure in E. rewrite bind_assoc in E.
    apply bind_Ok_inv in E as ([] & wm & Em & E).
    apply mkdir_p_is_dir in Em.
    pose proof (after_mkdir_keeps self c bt wm) as Hk.
    rewrite E in Hk. simpl in Hk. eapply is_dir_mono; eauto.
  - pose proof (after_acquire_keeps self c bt wa) as Hk.
    rewrite E in Hk. simpl in Hk. eapply path_exists_mono; eauto.
Qed.

Lemma for_each_layout self bt cs w w' :
  for_each cs (fun c => build_component host self c bt) w = (Ok tt, w') ->
  fs w ⊆ fs w'
  /\ forall c, c ∈ cs ->
       is_dir (fs w') (build_dir bt c) = true
       /\ path_exists (fs w') (source_dir bt c) = true.
Proof.
  revert w. induction cs as [|c cs IH]; intros w E; simpl in E.
  - inversion E; subst. split; [reflexivity|]. intros c Hc. inversion Hc.
  - apply bind_Ok_inv in E as ([] & w1 & E1 & E2).
    destruct (IH _ E2) as [Hsub Hall].
    pose proof (keeps_build_component host Hkeeps self c bt w) as Hk.
    rewrite E1 in Hk. simpl in Hk.
    split; [etrans; eauto|].
    intros c' [->|Hc']%elem_of_cons; [|auto].
    destruct (build_component_layout self c bt w w1 E1) as [Hb Hs].
    split; [eapply is_dir_mono | eapply path_exists_mono]; eauto.
Qed.

Lemma run_layout_aux self w w' :
  run host self w = (Ok tt, w') ->
  is_dir (fs w') (scratch host self) = true
  /\ forall c, c ∈ COMPONENTS self ->
       is_dir (fs w') (build_dir (scratch host self) c) = true
       /\ path_exists (fs w') (source_dir (scratch host self) c) = true.
Proof.
  intros E. unfold run in E.
  apply bind_Ok_inv in E as (bt & w0 & Hsetup & Hloop).
  destruct (run_setup_events host self bt w0 w Hsetup) as [-> _].
  destruct (for_each_layout _ _ _ _ _ Hloop) as [Hsub Hall].
  split; [|exact Hall].
  eapply is_dir_mono; [exact Hsub|].
  unfold run_setup in Hsetup.
  apply bind_Ok_inv in Hsetup as (out & wp & _ & Hs).
  fold (scratch host self) in Hs. cbv zeta in Hs.
  apply bind_Ok_inv in Hs as ([] & wm & Hm & Hr).
  injection Hr as <-. eapply mkdir_p_is_dir; eauto.
Qed.

(** On a host whose tools remove nothing and whose clone, when it succeeds,
    makes its destination: after a run that returned, the scratch directory
    is there, and for every component of the registry its build directory is
    there and its source directory exists. *)
Theorem run_layout self w w' :
  run host self w = (Ok tt, w') ->
  is_dir (fs w') (scratch host self) = true
  /\ forall c, c ∈ COMPONENTS self ->
       is_dir (fs w') (build_dir (scratch host self) c) = true
       /\ path_exists (fs w') (source_dir (scratch host self) c) = true.
Proof. apply run_layout_aux. Qed.
End Layout.

(** * Running again *)

Section Rerun.
Context `{Flavour}.
Variable host : Host.
Hypothesis Hkeeps : host_keeps_files host.
Hypothesis Hclone : host_clone_creates host.

Lemma emits_from_weaken {A} F P (m : M A) : emits P m -> emits_from F P m.
Proof. intros Hm w _. apply Hm. Qed.

Lemma emits_from_bind {A B} F P (m : M A) (k : A -> M B) :
  keeps m -> emits_from F P m -> (forall a, emits_from F P (k a)) ->
  emits_from F P (bind m k).
Proof.
  intros Hkm Hm Hk w HF. unfold bind.
  destruct (Hm w HF) as (ev1 & L1 & F1). specialize (Hkm w).
  destruct (m w) as [[a|e] w1]; simpl in *.
  - destruct (Hk a w1) as (ev2 & L2 & F2); [etrans; eauto|].
    exists (ev1 ++ ev2). rewrite L2, L1, app_assoc.
    split; [reflexivity | now apply Forall_app].
  - exists ev1. auto.
Qed.

Lemma emits_from_for_each {A} F P (l : list A) (body : A -> M unit) :
  (forall x, x ∈ l -> keeps (body x) /\ emits_from F P (body x)) ->
  emits_from F P (for_each l body).
Proof.
  induction l as [|x xs IH]; intros Hb; simpl.
  - apply emits_from_weaken, emits_ret.
  - destruct (Hb x) as [Hkx Hex]; [left|].
    apply emits_from_bind; auto.
    intros _. apply IH. intros y Hy. apply Hb. now right.
Qed.

(** Where the source directory is there, [build_component] does not call
    the version-control client. *)
Lemma build_component_from F self c bt :
  path_exists F (source_dir bt c) = true ->
  emits_from F (fun e => is_vcs_call e = false)
    (build_component host self c bt).
Proof.
  intros Hsrc. unfold build_component.
  do 3 (apply emits_from_bind;
        [apply keeps_print
        |apply emits_from_weaken, emits_print; reflexivity
        |intros _]).
  apply emits_from_bind.
  - unfold acquire.
    repeat first [ apply keeps_bind; [|intros ?] | apply keeps_exists
                 | match goal with
                   | |- keeps (if ?b then _ else _) => destruct b
                   end
                 | apply keeps_print
                 | apply keeps_check_call; assumption ].
  - intros w HF. exists [EPrint ("Using existing source at "
                                  +:+ Pathlib.str (source_dir bt c))].
    rewrite (acquire_present host c bt w).
    + split; [reflexivity|]. repeat constructor.
    + eapply path_exists_mono; eauto.
  - intros _. apply emits_from_weaken, after_acquire_no_vcs.
Qed.

(** On a host whose tools remove nothing and whose clone, when it succeeds,
    makes its destination: once a run has returned, a later run, started in
    a world where nothing of what the first one left has been removed, never
    calls the version-control client, whatever else happens in it. *)
Theorem second_run_no_clone self w w1 w2 :
  run host self w = (Ok tt, w1) ->
  fs w1 ⊆ fs w2 ->
  vcs_invoked (new_events w2 (snd (run host self w2))) = false.
Proof.
  intros E1 Hsub.
  destruct (run_layout_aux host Hkeeps Hclone self w w1 E1) as [_ Hsrc].
  destruct (spawn host w2 probe_argv None) as [k|r out f'] eqn:Ep.
  - rewrite (run_probe_missing host self w2 k Ep).
    erewrite new_events_app by reflexivity. reflexivity.
  - destruct (decide (r = 0)) as [->|Hr].
    + rewrite (run_probe_ok host self w2 out f' Ep).
      fold (scratch host self). cbv zeta.
      match goal with |- context [snd (?m ?w0)] =>
        assert (Hm : emits_from (fs w1) (fun e => is_vcs_call e = false) m);
          [|destruct (Hm w0) as (evs & L & F)] end.
      { apply emits_from_bind.
        - apply keeps_mkdir_p.
        - apply emits_from_weaken, emits_mkdir_p. reflexivity.
        - intros _. apply emits_from_for_each. intros c Hc. split.
          + now apply keeps_build_component.
          + apply build_component_from. now apply Hsrc. }
      { simpl. etrans; [exact Hsub | eapply Hkeeps, Ep]. }
      erewrite new_events_app
        by (rewrite L; simpl; rewrite <- app_assoc; reflexivity).
      simpl. now apply not_vcs_existsb.
    + rewrite (run_probe_nonzero host self w2 r out f' Ep Hr).
      erewrite new_events_app by reflexivity. reflexivity.
Qed.
End Rerun.

(** * Plain names on POSIX *)

Section Posix.

Lemma string_app_nil_r (s : string) : s +:+ "" = s.
Proof.
  induction s as [|a s IH]; [reflexivity|].
  change (String a s +:+ "") with (String a (s +:+ "")). now rewrite IH.
Qed.

Lemma string_app_ne (s : string) : s <> s +:+ "-build".
Proof.
  intros E. rewrite <- (string_app_nil_r s) in E at 1.
  apply (inj (String.app s)) in E. discriminate.
Qed.

Lemma no_slash_app s : no_slash (s +:+ "-build") = no_slash s.
Proof.
  induction s as [|a s IH]; [reflexivity|].
  change (String a s +:+ "-build") with (String a (s +:+ "-build")).
  cbn [no_slash]. now rewrite IH.
Qed.

Lemma split_no_slash s : no_slash s = true -> Text.split "/" s = [s].
Proof.
  induction s as [|a s IH]; [reflexivity|].
  cbn [no_slash Text.split]. intros [Ha Hs]%andb_prop.
  apply negb_true_iff in Ha. rewrite Ha, (IH Hs). reflexivity.
Qed.

Lemma posix_splitroot_rel a r :
  Ascii.eqb a "/" = false ->
  Pathlib.posix_splitroot (String a r) = ("", String a r).
Proof.
  destruct a as [[] [] [] [] [] [] [] []]; intros E;
    try reflexivity; vm_compute in E; discriminate.
Qed.

Lemma posix_of_str_plain s :
  no_slash s = true -> s <> "" -> s <> "." ->
  Pathlib.posix_of_str s = mkPath "" [s].
Proof.
  intros Hs Hne Hdot. unfold Pathlib.posix_of_str.
  destruct s as [|a r]; [congruence|].
  rewrite posix_splitroot_rel.
  - unfold Pathlib.posix_tail. rewrite (split_no_slash _ Hs).
    rewrite filter_cons_True by (split; assumption). reflexivity.
  - cbn [no_slash] in Hs. apply andb_prop in Hs as [Ha _].
    now apply negb_true_iff in Ha.
Qed.

Lemma posix_joinpath_plain bt s :
  no_slash s = true -> s <> "" -> s <> "." ->
  Pathlib.posix_joinpath bt s = mkPath (anchor bt) (parts bt ++ [s]).
Proof.
  intros Hs Hne Hdot. unfold Pathlib.posix_joinpath.
  now rewrite (posix_of_str_plain s Hs Hne Hdot).
Qed.

Lemma join_cons sep a l :
  l <> [] -> Text.join sep (a :: l) = a +:+ sep +:+ Text.join sep l.
Proof. destruct l; [congruence | reflexivity]. Qed.

Lemma join_snoc_inj sep l x y :
  Text.join sep (l ++ [x]) = Text.join sep (l ++ [y]) -> x = y.
Proof.
  induction l as [|a l IH]; [exact id|].
  rewrite <- !app_comm_cons, !join_cons by (now destruct l).
  intros E. apply (inj (String.app a)) in E.
  apply (inj (String.app sep)) in E. auto.
Qed.

Lemma str_snoc `{Flavour} a l x :
  Pathlib.str (mkPath a (l ++ [x])) = a +:+ Text.join sep (l ++ [x]).
Proof. unfold Pathlib.str. simpl. destruct a, l; reflexivity. Qed.

Lemma parent_snoc bt x : Pathlib.parent (mkPath (anchor bt) (parts bt ++ [x])) = bt.
Proof. unfold Pathlib.parent. simpl. rewrite removelast_last. now destruct bt. Qed.

Lemma plain_name_spec s :
  plain_name s = true ->
  no_slash s = true /\ s <> "" /\ s <> "." /\ s <> "..".
Proof.
  unfold plain_name.
  intros [[[H1 H2]%andb_prop H3]%andb_prop H4]%andb_prop.
  apply negb_true_iff, String.eqb_neq in H2, H3, H4. auto.
Qed.

Lemma build_suffix_plain s :
  no_slash s = true ->
  no_slash (s +:+ "-build") = true
  /\ s +:+ "-build" <> "" /\ s +:+ "-build" <> ".".
Proof.
  intros Hs. rewrite no_slash_app. split; [exact Hs|].
  destruct s as [|a [|b r]]; split; intros E; cbv in E; discriminate.
Qed.

(** With POSIX paths, a component whose name is a plain directory name gets
    two distinct directories directly under the scratch directory: the source
    directory is the scratch directory followed by the name, the build
    directory is the scratch directory followed by the name and [-build],
    the parent of both is the scratch directory, and their texts differ. *)
Theorem posix_plain_layout c bt :
  plain_name (name c) = true ->
  @source_dir Pathlib.posix bt c = mkPath (anchor bt) (parts bt ++ [name c])
  /\ @build_dir Pathlib.posix bt c
     = mkPath (anchor bt) (parts bt ++ [name c +:+ "-build"])
  /\ Pathlib.parent (@source_dir Pathlib.posix bt c) = bt
  /\ Pathlib.parent (@build_dir Pathlib.posix bt c) = bt
  /\ @Pathlib.str Pathlib.posix (@source_dir Pathlib.posix bt c)
     <> @Pathlib.str Pathlib.posix (@build_dir Pathlib.posix bt c).
Proof.
  intros (Hs & Hne & Hdot & _)%plain_name_spec.
  destruct (build_suffix_plain _ Hs) as (Hs' & Hne' & Hdot').
  assert (Esrc : @source_dir Pathlib.posix bt c
                 = mkPath (anchor bt) (parts bt ++ [name c]))
    by (apply posix_joinpath_plain; assumption).
  assert (Ebld : @build_dir Pathlib.posix bt c
                 = mkPath (anchor bt) (parts bt ++ [name c +:+ "-build"]))
    by (apply posix_joinpath_plain; assumption).
  rewrite Esrc, Ebld, !parent_snoc, !str_snoc.
  repeat split; try reflexivity.
  intros E. apply (inj (String.app (anchor bt))) in E.
  apply join_snoc_inj in E. exact (string_app_ne _ E).
Qed.
End Posix.

(** * Success *)

Section Success.
Context `{Flavour}.
Variable host : Host.




End Success.

(** * When the tools work *)

Section Working.
Context `{Flavour}.
Variable host : Host.
Variable self : CMakeBuild.
Hypothesis Hwork : tools_work host self.

Lemma works_bind {A B} P Q R (m : M A) (k : A -> M B) :
  works P Q m -> (forall a, works Q R (k a)) -> works P R (bind m k).
Proof.
  intros Hm Hk w Hw. destruct (Hm w Hw) as (a & w1 & E1 & H1).
  destruct (Hk a w1 H1) as (b & w2 & E2 & H2).
  exists b, w2. split; [|exact H2]. now rewrite (bind_Ok _ _ _ _ _ E1).
Qed.

Lemma works_print P text : works P P (print text).
Proof. intros w Hw. eexists _, _. split; [reflexivity|exact Hw]. Qed.

Lemma works_ret {A} P (a : A) : works P P (ret a).
Proof. intros w Hw. eexists _, _. split; [reflexivity|exact Hw]. Qed.

Lemma works_post {A} P Q Q' (m : M A) :
  works P Q m -> (forall f, Q f -> Q' f) -> works P Q' m.
Proof.
  intros Hm HQ w Hw. destruct (Hm w Hw) as (a & w' & E & Hq). eauto.
Qed.

Lemma works_pre {A} P P' Q (m : M A) :
  works P Q m -> (forall f, P' f -> P f) -> works P' Q m.
Proof. intros Hm HP w Hw. apply Hm, HP, Hw. Qed.

Lemma works_for_each_in {A} P (l : list A) (body : A -> M unit) :
  (forall x, x ∈ l -> works P P (body x)) -> works P P (for_each l body).
Proof.
  induction l as [|x xs IH]; intros Hb; simpl.
  - apply works_ret.
  - eapply works_bind.
    + apply Hb. left.
    + intros _. apply IH. intros y Hy. apply Hb. now right.
Qed.

(** *** Making a directory where no regular file is in the way *)

Lemma clear_insert_Dir f k :
  clear host self f -> clear host self (<[k := Dir]> f).
Proof.
  intros Hf k' Hk'. destruct (decide (k = k')) as [->|Hne].
  - rewrite lookup_insert_eq. discriminate.
  - rewrite lookup_insert_ne by assumption. now apply Hf.
Qed.

Lemma clear_stat f p0 q :
  clear host self f -> p0 ∈ mkdir_targets host self -> q ∈ ancestors p0 ->
  stat f q <> Some File.
Proof.
  intros Hf H0 Hq. unfold stat. destruct (parts q); [discriminate|].
  apply Hf. eapply watched_ancestor; eauto.
Qed.

Lemma os_mkdir_clear f p :
  stat f p <> Some File -> stat f (Pathlib.parent p) <> Some File ->
  (exists f', os_mkdir f p = inr f' /\ f' = <[Pathlib.str p := Dir]> f)
  \/ os_mkdir f p = inl FileExistsError /\ is_dir f p = true
  \/ os_mkdir f p = inl FileNotFoundError
     /\ stat f (Pathlib.parent p) = None.
Proof.
  intros Hp Hpar. unfold os_mkdir.
  destruct (stat f p) as [[|]|] eqn:E1; [congruence| |].
  - right; left. split; [reflexivity|].
    unfold is_dir. now apply bool_decide_eq_true.
  - destruct (stat f (Pathlib.parent p)) as [[|]|] eqn:E2; [congruence| |].
    + left. eauto.
    + right; right. auto.
Qed.

Lemma path_mkdir_flat_clear k p f :
  stat f p <> Some File -> is_dir f (Pathlib.parent p) = true ->
  exists f', path_mkdir k false true p f = inr f'
             /\ (f' = f \/ f' = <[Pathlib.str p := Dir]> f).
Proof.
  intros Hp Hpar. apply bool_decide_eq_true in Hpar.
  destruct (os_mkdir_clear f p Hp)
    as [(f' & E & Hf') | [[E Hd] | [E Hnone]]]; [congruence| | |congruence].
  - exists f'. destruct k; simpl; rewrite E; auto.
  - exists f. destruct k; simpl; rewrite E, Hd; auto.
Qed.

Lemma removelast_shorter {A} (l : list A) :
  l <> [] -> S (length (removelast l)) = length l.
Proof.
  destruct l as [|x l _] using rev_ind; [congruence|]. intros _.
  rewrite removelast_last, length_app. simpl. lia.
Qed.

(** Where no regular file is in the way, making a directory and its parents
    goes through, and leaves no regular file in the way. *)
Lemma path_mkdir_clear p0 n p f :
  p0 ∈ mkdir_targets host self -> clear host self f -> p ∈ ancestors p0 ->
  (length (parts p) <= n)%nat ->
  exists f', path_mkdir n true true p f = inr f' /\ clear host self f'.
Proof.
  intros H0. revert p f. induction n as [|n IH]; intros p f Hf Hp Hn;
    destruct (os_mkdir_clear f p (clear_stat f p0 p Hf H0 Hp)
                (clear_stat f p0 _ Hf H0 (ancestors_parent _ _ Hp)))
      as [(f' & E & ->) | [[E Hd] | [E Hnone]]].
  - eexists. simpl. rewrite E. split; [reflexivity|].
    now apply clear_insert_Dir.
  - exists f. simpl. rewrite E, Hd. auto.
  - exfalso. unfold stat in Hnone. simpl in Hnone.
    destruct (parts p); [discriminate|simpl in Hn; lia].
  - eexists. simpl. rewrite E. split; [reflexivity|].
    now apply clear_insert_Dir.
  - exists f. simpl. rewrite E, Hd. auto.
  - assert (Hpp : parts p <> []).
    { intros Hpp. unfold stat in Hnone. simpl in Hnone.
      rewrite Hpp in Hnone. discriminate. }
    assert (Hne : Pathlib.parent p <> p).
    { intros Heq. apply (f_equal (fun q => length (parts q))) in Heq.
      simpl in Heq. pose proof (removelast_shorter _ Hpp). lia. }
    simpl. rewrite E. rewrite (bool_decide_eq_false_2 _ Hne). simpl.
    destruct (IH (Pathlib.parent p) f Hf (ancestors_parent _ _ Hp))
      as (f1 & E1 & Hf1).
    { simpl. pose proof (removelast_shorter _ Hpp). lia. }
    rewrite E1.
    destruct (path_mkdir_flat_clear n p f1) as (f' & E' & Hf').
    + exact (clear_stat f1 p0 p Hf1 H0 Hp).
    + eapply path_mkdir_is_dir, E1.
    + exists f'. split; [exact E'|].
      destruct Hf' as [->| ->]; [exact Hf1 | now apply clear_insert_Dir].
Qed.

Lemma works_mkdir_p p :
  p ∈ mkdir_targets host self ->
  works (clear host self)
        (fun f => clear host self f /\ is_dir f p = true) (mkdir_p p).
Proof.
  intros Hp w Hw.
  destruct (path_mkdir_clear p (length (parts p)) p (fs w) Hp Hw
              (ancestors_self p)) as (f' & E & Hf'); [lia|].
  exists tt, (mkWorld f' (log w ++ [EMkdir p])).
  unfold mkdir_p. rewrite E. split; [reflexivity|]. split; [exact Hf'|].
  eapply path_mkdir_is_dir, E.
Qed.

(** *** The calls *)

Lemma works_cmake c argv :
  c ∈ COMPONENTS self ->
  argv = configure_argv host self (scratch host self) c
  \/ argv = build_args (parallel self) (cpu_count host)
  \/ argv = install_args ->
  works (fun f => clear host self f
                  /\ is_dir f (build_dir (scratch host self) c) = true)
        (fun f => clear host self f
                  /\ is_dir f (build_dir (scratch host self) c) = true)
        (check_call host argv (Some (build_dir (scratch host self) c))).
Proof.
  intros Hc Hh w [Hw Hd].
  destruct Hwork as (_ & _ & Hcmake).
  destruct (Hcmake w c argv Hc Hh Hw Hd) as (out & f' & E & Hf' & Hd').
  unfold check_call. rewrite E. simpl. eexists _, _. split; [reflexivity|].
  auto.
Qed.

Lemma works_acquire c :
  c ∈ COMPONENTS self ->
  works (clear host self) (clear host self)
        (acquire host c (scratch host self)).
Proof.
  intros Hc w Hw. unfold acquire, bind at 1, exists_.
  destruct (path_exists (fs w) (source_dir (scratch host self) c)) eqn:Ex;
    simpl.
  - eexists _, _. split; [reflexivity|exact Hw].
  - destruct Hwork as (_ & Hclone & _).
    destruct (Hclone (logged w [EPrint ("Cloning " +:+ repo c +:+ "...")])
                c Hc Hw Ex) as (out & f' & E & Hf').
    rewrite bind_print_logged. unfold check_call. rewrite E. simpl.
    eexists _, _. split; [reflexivity|exact Hf'].
Qed.

Lemma works_build_component c :
  c ∈ COMPONENTS self ->
  works (clear host self) (clear host self)
        (build_component host self c (scratch host self)).
Proof.
  intros Hc.
  assert (Ht : build_dir (scratch host self) c ∈ mkdir_targets host self).
  { right. apply list_elem_of_fmap. eauto. }
  unfold build_component, configure, compile, install.
  eapply works_bind; [apply works_print|intros _].
  eapply works_bind; [apply works_print|intros _].
  eapply works_bind; [apply works_print|intros _].
  eapply works_bind; [now apply works_acquire|intros _].
  eapply works_bind.
  { eapply works_bind; [now apply works_mkdir_p|intros _].
    eapply works_bind; [apply works_print|intros _].
    eapply works_bind; [apply works_print|intros _].
    apply works_cmake; auto. }
  intros _. eapply works_bind.
  { eapply works_bind; [apply works_print|intros _].
    apply works_cmake; auto. }
  intros _. eapply works_bind.
  { eapply works_bind; [apply works_print|intros _].
    apply works_cmake; auto. }
  intros _. eapply works_post; [apply works_print|]. now intros f [Hf _].
Qed.

(** When the tools work, the run returns.  On a host where the version
    probe, the clone of a component that is not there yet and cmake in an
    existing build directory exit with status 0, and where no tool puts a
    regular file in the place of a directory that the script makes or of an
    ancestor of one, a run started on a filesystem with no regular file at
    those places returns without an exception, whatever the registry.
    Regular files anywhere else are no obstacle: the project's own files,
    what a clone writes into the source tree, what cmake writes into the
    build directory. *)
Theorem run_succeeds w :
  clear host self (fs w) ->
  exists w', run host self w = (Ok tt, w') /\ clear host self (fs w').
Proof.
  intros Hw. destruct Hwork as (Hprobe & _ & _).
  destruct (Hprobe w Hw) as (out & f' & Ep & Hf').
  rewrite (run_probe_ok host self w out f' Ep).
  fold (scratch host self). cbv zeta.
  match goal with |- context [?m ?w0 = _] =>
    assert (Hm : works (clear host self) (clear host self) m);
      [|destruct (Hm w0 Hf') as ([] & w' & E & Hc'); eauto] end.
  eapply works_bind.
  - apply works_mkdir_p. left.
  - intros _. eapply works_pre; [|intros f [Hf _]; exact Hf].
    apply works_for_each_in. intros c Hc. now apply works_build_component.
Qed.
End Working.

(** * The demonstration hosts *)

Section Clear.
Context `{Flavour}.
Variable host : Host.
Variable self : CMakeBuild.

Lemma clear_insert_other f key n :
  key ∉ watched host self -> clear host self f ->
  clear host self (<[key := n]> f).
Proof.
  intros Hkey Hf k Hk. rewrite lookup_insert_ne; [now apply Hf|].
  intros ->. contradiction.
Qed.

Lemma is_dir_insert_other f p k n :
  k <> Pathlib.str p -> is_dir (<[k := n]> f) p = is_dir f p.
Proof.
  intros Hk. unfold is_dir, stat. destruct (parts p); [reflexivity|].
  now rewrite lookup_insert_ne.
Qed.

Lemma path_exists_false f p :
  path_exists f p = false -> f !! Pathlib.str p = None.
Proof.
  unfold path_exists, stat. intros E. apply bool_decide_eq_false in E.
  destruct (parts p); [destruct E; eauto|].
  destruct (f !! Pathlib.str p); [destruct E; eauto|reflexivity].
Qed.
End Clear.

(** The host that writes files is one where the tools work. *)
Lemma host_real_works : @tools_work Demo.flavour Demo.host_real Demo.self.
Proof.
  split; [|split].
  - intros w Hw. exists "cmake version 3.28.1", (fs w).
    split; [reflexivity|exact Hw].
  - intros w c Hc Hw Ex. apply path_exists_false in Ex.
    eexists "", _. split.
    + unfold clone_argv.
      cbn [spawn Demo.host_real Demo.host_with Demo.spawn_real].
      change (String.eqb "git" "git" && String.eqb "clone" "clone") with true.
      cbv iota. rewrite Ex. reflexivity.
    + apply clear_insert_other; [|now apply clear_insert_Dir].
      apply (bool_decide_eq_false_1 _).
      cbv [COMPONENTS Demo.self] in Hc.
      repeat (apply elem_of_cons in Hc as [->|Hc]);
        [vm_compute; reflexivity ..|inversion Hc].
  - intros w c argv Hc Hh Hw Hd.
    eexists "", _. split; [reflexivity|].
    cbv [COMPONENTS Demo.self] in Hc.
    split.
    + apply clear_insert_other; [|exact Hw].
      apply (bool_decide_eq_false_1 _).
      repeat (apply elem_of_cons in Hc as [->|Hc]);
        [vm_compute; reflexivity ..|inversion Hc].
    + rewrite is_dir_insert_other; [exact Hd|].
      repeat (apply elem_of_cons in Hc as [->|Hc]);
        [intros Heq; vm_compute in Heq; discriminate ..|inversion Hc].
Qed.

(** The [setup.py] of the project is in the way of no directory. *)
Lemma w_project_clear :
  @clear Demo.flavour Demo.host_real Demo.self (fs Demo.w_project).
Proof.
  intros k Hk. simpl. rewrite lookup_singleton_ne; [discriminate|].
  intros <-. revert Hk. apply (bool_decide_eq_false_1 _).
  vm_compute. reflexivity.
Qed.

Lemma host_careful_keeps_files : host_keeps_files Demo.host_careful.
Proof.
  intros w argv cwd r out f' E. simpl in E. unfold Demo.spawn_careful in E.
  destruct argv as [|a [|b [|c [|d [|]]]]];
    try (injection E as _ _ <-; reflexivity).
  destruct (String.eqb a "git" && String.eqb b "clone");
    [destruct (fs w !! d) eqn:Ed|]; injection E as _ _ <-;
    try reflexivity.
  now apply insert_subseteq.
Qed.

Lemma host_careful_clone_creates : host_clone_creates Demo.host_careful.
Proof.
  intros w src dst out f' E. simpl in E. unfold Demo.spawn_careful in E.
  simpl in E. destruct (fs w !! dst); [discriminate|].
  injection E as _ <-. rewrite lookup_insert_eq. eauto.
Qed.


(** The build of [runtime] on the demonstration host, from nothing. *)
Lemma build_component_success_trace_witness :
  @build_component Demo.flavour Demo.host_ok Demo.self Demo.c_runtime
    Demo.bt Demo.w_init = (Ok tt, Demo.w_built)
  /\ new_events Demo.w_init Demo.w_built
     = @script Demo.flavour Demo.host_ok Demo.self Demo.bt Demo.c_runtime
         (@path_exists Demo.flavour (fs Demo.w_init)
            (@source_dir Demo.flavour Demo.bt Demo.c_runtime)).
Proof.
  assert (Hrun : @build_component Demo.flavour Demo.host_ok Demo.self
                   Demo.c_runtime Demo.bt Demo.w_init
                 = (Ok tt, Demo.w_built)) by (vm_compute; reflexivity).
  split; [exact Hrun|].
  exact (@build_component_success_trace Demo.flavour Demo.host_ok Demo.self
           Demo.c_runtime Demo.bt Demo.w_init Demo.w_built Hrun).
Defined.

(** The failed build of [runtime] on [host_build_fails]. *)
Lemma build_component_failure_trace_witness :
  @build_component Demo.flavour Demo.host_build_fails Demo.self
    Demo.c_runtime Demo.bt Demo.w_init
  = (Raise Demo.e_build, Demo.w_build_failed)
  /\ exists pre ev post,
       @script Demo.flavour Demo.host_build_fails Demo.self Demo.bt
         Demo.c_runtime
         (@path_exists Demo.flavour (fs Demo.w_init)
            (@source_dir Demo.flavour Demo.bt Demo.c_runtime))
       = pre ++ ev :: post
       /\ fallible ev
       /\ post <> []
       /\ new_events Demo.w_init Demo.w_build_failed = pre ++ [ev].
Proof.
  assert (Hrun : @build_component Demo.flavour Demo.host_build_fails
                   Demo.self Demo.c_runtime Demo.bt Demo.w_init
                 = (Raise Demo.e_build, Demo.w_build_failed))
    by (vm_compute; reflexivity).
  split; [exact Hrun|].
  exact (@build_component_failure_trace Demo.flavour Demo.host_build_fails
           Demo.self Demo.c_runtime Demo.bt Demo.w_init Demo.e_build
           Demo.w_build_failed Hrun).
Defined.

(** The whole run on the demonstration host. *)
Lemma run_success_trace_witness :
  @run Demo.flavour Demo.host_ok Demo.self Demo.w_init = (Ok tt, Demo.w_ran)
  /\ new_events Demo.w_init Demo.w_ran
     = ESpawn probe_argv None
       :: EMkdir (@scratch Demo.flavour Demo.host_ok Demo.self)
       :: concat
            (zip_with
               (@script Demo.flavour Demo.host_ok Demo.self
                  (@scratch Demo.flavour Demo.host_ok Demo.self))
               (COMPONENTS Demo.self)
               (@presence Demo.flavour Demo.host_ok Demo.self
                  (@scratch Demo.flavour Demo.host_ok Demo.self)
                  (COMPONENTS Demo.self)
                  (snd (@run_setup Demo.flavour Demo.host_ok Demo.self
                          Demo.w_init)))).
Proof.
  assert (Hrun : @run Demo.flavour Demo.host_ok Demo.self Demo.w_init
                 = (Ok tt, Demo.w_ran)) by (vm_compute; reflexivity).
  split; [exact Hrun|].
  exact (@run_success_trace Demo.flavour Demo.host_ok Demo.self Demo.w_init
           Demo.w_ran Hrun).
Defined.

(** The run on [host_runtime_fails], which stops at the configure call of
    the second component. *)
Lemma run_failure_trace_witness :
  exists pre ev post,
    @script Demo.flavour Demo.host_runtime_fails Demo.self Demo.bt
      Demo.c_runtime
      (@path_exists Demo.flavour (fs Demo.w_first)
         (@source_dir Demo.flavour Demo.bt Demo.c_runtime))
    = pre ++ ev :: post
    /\ fallible ev
    /\ new_events Demo.w_init Demo.w_failed
       = ESpawn probe_argv None
         :: EMkdir Demo.bt
         :: concat
              (zip_with
                 (@script Demo.flavour Demo.host_runtime_fails Demo.self
                    Demo.bt)
                 (take 1 (COMPONENTS Demo.self))
                 (@presence Demo.flavour Demo.host_runtime_fails Demo.self
                    Demo.bt (take 1 (COMPONENTS Demo.self)) Demo.w_setup))
         ++ pre ++ [ev].
Proof.
  apply (@run_failure_trace Demo.flavour Demo.host_runtime_fails Demo.self
           Demo.w_init Demo.bt Demo.w_setup 1%nat Demo.c_runtime
           Demo.w_first Demo.e_configure Demo.w_failed);
    vm_compute; reflexivity.
Defined.

(** A regular file where the scratch directory should be. *)
Lemma run_scratch_blocked_witness :
  @run Demo.flavour Demo.host_ok Demo.self Demo.w_scratch_is_file
  = (Raise (OSError FileExistsError),
     mkWorld (fs Demo.w_scratch_is_file)
       (log Demo.w_scratch_is_file
        ++ [ESpawn probe_argv None;
            EMkdir (@scratch Demo.flavour Demo.host_ok Demo.self)])).
Proof.
  apply (@run_scratch_blocked Demo.flavour Demo.host_ok Demo.self
           Demo.w_scratch_is_file "cmake version 3.28.1");
    vm_compute; reflexivity.
Defined.

(** A regular file where the build directory of [runtime] should be. *)
Lemma configure_blocked_witness :
  @configure Demo.flavour Demo.host_ok Demo.self Demo.c_runtime Demo.bt
    Demo.w_build_is_file
  = (Raise (OSError FileExistsError),
     mkWorld (fs Demo.w_build_is_file)
       (log Demo.w_build_is_file
        ++ [EMkdir (@build_dir Demo.flavour Demo.bt Demo.c_runtime)])).
Proof.
  apply (@configure_blocked Demo.flavour Demo.host_ok Demo.self
           Demo.c_runtime Demo.bt Demo.w_build_is_file).
  vm_compute. reflexivity.
Defined.

(** The exception of the run on [host_runtime_fails]. *)
Lemma run_error_taxonomy_witness :
  @run Demo.flavour Demo.host_runtime_fails Demo.self Demo.w_init
  = (Raise Demo.e_configure, Demo.w_failed)
  /\ @run_error Demo.flavour Demo.host_runtime_fails Demo.self
       Demo.e_configure.
Proof.
  assert (Hrun : @run Demo.flavour Demo.host_runtime_fails Demo.self
                   Demo.w_init = (Raise Demo.e_configure, Demo.w_failed))
    by (vm_compute; reflexivity).
  split; [exact Hrun|].
  exact (@run_error_taxonomy Demo.flavour Demo.host_runtime_fails Demo.self
           Demo.w_init Demo.e_configure Demo.w_failed Hrun).
Defined.

(** What was there before the run on [host_careful] is there after it. *)
Lemma run_keeps_files_witness :
  host_keeps_files Demo.host_careful
  /\ fs Demo.w_cloned
     ⊆ fs (snd (@run Demo.flavour Demo.host_careful Demo.self
                  Demo.w_cloned)).
Proof.
  split; [exact host_careful_keeps_files|].
  exact (@run_keeps_files Demo.flavour Demo.host_careful
           host_careful_keeps_files Demo.self Demo.w_cloned).
Defined.

(** The directories left by the run on [host_careful]. *)
Lemma run_layout_witness :
  @run Demo.flavour Demo.host_careful Demo.self Demo.w_init
  = (Ok tt, Demo.w_done)
  /\ @is_dir Demo.flavour (fs Demo.w_done)
       (@scratch Demo.flavour Demo.host_careful Demo.self) = true
  /\ forall c, c ∈ COMPONENTS Demo.self ->
       @is_dir Demo.flavour (fs Demo.w_done)
         (@build_dir Demo.flavour
            (@scratch Demo.flavour Demo.host_careful Demo.self) c) = true
       /\ @path_exists Demo.flavour (fs Demo.w_done)
            (@source_dir Demo.flavour
               (@scratch Demo.flavour Demo.host_careful Demo.self) c)
          = true.
Proof.
  assert (Hrun : @run Demo.flavour Demo.host_careful Demo.self Demo.w_init
                 = (Ok tt, Demo.w_done)) by (vm_compute; reflexivity).
  split; [exact Hrun|].
  exact (@run_layout Demo.flavour Demo.host_careful host_careful_keeps_files
           host_careful_clone_creates Demo.self Demo.w_init Demo.w_done
           Hrun).
Defined.

(** Running again on [host_careful], right after a run that returned. *)
Lemma second_run_no_clone_witness :
  @run Demo.flavour Demo.host_careful Demo.self Demo.w_init
  = (Ok tt, Demo.w_done)
  /\ vcs_invoked
       (new_events Demo.w_done
          (snd (@run Demo.flavour Demo.host_careful Demo.self Demo.w_done)))
     = false.
Proof.
  assert (Hrun : @run Demo.flavour Demo.host_careful Demo.self Demo.w_init
                 = (Ok tt, Demo.w_done)) by (vm_compute; reflexivity).
  split; [exact Hrun|].
  apply (@second_run_no_clone Demo.flavour Demo.host_careful
           host_careful_keeps_files host_careful_clone_creates Demo.self
           Demo.w_init Demo.w_done Demo.w_done Hrun).
  reflexivity.
Defined.



(** The registry's [runtime] under the demonstration scratch directory. *)
Lemma posix_plain_layout_witness :
  plain_name (name Demo.c_runtime) = true
  /\ @source_dir Pathlib.posix Demo.bt Demo.c_runtime
     = mkPath "/" ["home"; "u"; "proj"; "build"; "temp"; "runtime"]
  /\ @build_dir Pathlib.posix Demo.bt Demo.c_runtime
     = mkPath "/" ["home"; "u"; "proj"; "build"; "temp"; "runtime-build"].
Proof.
  assert (Hp : plain_name (name Demo.c_runtime) = true) by reflexivity.
  split; [exact Hp|].
  destruct (posix_plain_layout Demo.c_runtime Demo.bt Hp)
    as (Hs & Hb & _).
  split; [exact Hs | exact Hb].
Defined.

(** The host that writes files, started in a project directory that holds
    its [setup.py]. *)
Lemma run_succeeds_witness :
  (@tools_work Demo.flavour Demo.host_real Demo.self
   /\ @clear Demo.flavour Demo.host_real Demo.self (fs Demo.w_project))
  /\ exists w',
       @run Demo.flavour Demo.host_real Demo.self Demo.w_project
       = (Ok tt, w')
       /\ @clear Demo.flavour Demo.host_real Demo.self (fs w').
Proof.
  split; [split; [exact host_real_works | exact w_project_clear]|].
  exact (@run_succeeds Demo.flavour Demo.host_real Demo.self
           host_real_works Demo.w_project w_project_clear).
Defined.
